(** * PetKit binary-sensor platform: a shallow embedding and its properties

    The development follows [custom_components/petkit/binary_sensor.py].
    Python values coming from the cloud API are modelled by [json]; the
    coordinator is a store that property getters read through a small
    state-and-exception monad [M]; every entity class of the platform is a
    module holding its properties, named as in the source.  Dicts are
    association lists in insertion order: the list the setup builds follows
    the iteration order of the coordinator's dicts. *)

From Stdlib Require Import ZArith QArith String Ascii List Bool Lia.
From Stdlib Require Import DecimalString DecimalZ.
Import ListNotations.
Local Open Scope Z_scope.
Local Open Scope string_scope.
Local Open Scope list_scope.

Set Implicit Arguments.
Set Warnings "-register-all".

(** ** Python values *)

(** A Python [float]: not-a-number, an infinity, or a finite value, kept as
    the exact rational it denotes.  Python compares an [int] with a [float]
    by exact value, so this is all the comparisons below need. *)
Inductive pyfloat : Type :=
| FNan
| FInf (negative : bool)
| FFin (q : Q).

(** The decoded API payload: [None], [bool], [int], [float], [str], [list]
    and [dict] with string keys (kept in insertion order). *)
Inductive json : Type :=
| JNull
| JBool (b : bool)
| JInt (z : Z)
| JFloat (f : pyfloat)
| JStr (s : string)
| JList (l : list json)
| JDict (d : list (string * json)).

Definition dict : Type := list (string * json).

(** The two exceptions the platform code can run into. *)
Inductive exn : Type :=
| KeyError
| TypeError.

Inductive result (A : Type) : Type :=
| Ok (a : A)
| Raise (e : exn).
Arguments Ok {A} a.
Arguments Raise {A} e.

(** *** Dictionaries *)

Fixpoint dict_get (d : dict) (k : string) : option json :=
  match d with
  | [] => None
  | (k', v) :: d' => if String.eqb k' k then Some v else dict_get d' k
  end.

(** [k in d] for a dict [d]. *)
Definition dict_contains (k : string) (d : dict) : bool :=
  match dict_get d k with
  | Some _ => true
  | None => false
  end.

(** [d[k]] for a dict [d]: [KeyError] on a missing key. *)
Definition getitem (d : dict) (k : string) : result json :=
  match dict_get d k with
  | Some v => Ok v
  | None => Raise KeyError
  end.

(** [v[k]] for an arbitrary value [v] and a string [k]: only a dict can be
    subscripted by a string. *)
Definition subscript (v : json) (k : string) : result json :=
  match v with
  | JDict d => getitem d k
  | _ => Raise TypeError
  end.

(** *** Comparisons against literals *)

Inductive number : Type :=
| NInt (z : Z)
| NFloat (f : pyfloat).

(** [bool] is a subclass of [int]: [True] is 1 and [False] is 0. *)
Definition as_number (v : json) : option number :=
  match v with
  | JBool b => Some (NInt (Z.b2z b))
  | JInt z => Some (NInt z)
  | JFloat f => Some (NFloat f)
  | _ => None
  end.

Definition float_eq_int (f : pyfloat) (n : Z) : bool :=
  match f with
  | FFin q => Qeq_bool q (inject_Z n)
  | _ => false
  end.

Definition float_lt_int (f : pyfloat) (n : Z) : bool :=
  match f with
  | FNan => false
  | FInf negative => negative
  | FFin q => negb (Qle_bool (inject_Z n) q)
  end.

Definition float_gt_int (f : pyfloat) (n : Z) : bool :=
  match f with
  | FNan => false
  | FInf negative => negb negative
  | FFin q => negb (Qle_bool q (inject_Z n))
  end.

(** [v == n] for an integer literal [n]; never raises. *)
Definition py_eq_int (v : json) (n : Z) : bool :=
  match as_number v with
  | Some (NInt z) => Z.eqb z n
  | Some (NFloat f) => float_eq_int f n
  | None => false
  end.

(** [v < n] for an integer literal [n]; [TypeError] unless [v] is a number. *)
Definition py_lt_int (v : json) (n : Z) : result bool :=
  match as_number v with
  | Some (NInt z) => Ok (Z.ltb z n)
  | Some (NFloat f) => Ok (float_lt_int f n)
  | None => Raise TypeError
  end.

(** [v > n] for an integer literal [n]; [TypeError] unless [v] is a number. *)
Definition py_gt_int (v : json) (n : Z) : result bool :=
  match as_number v with
  | Some (NInt z) => Ok (Z.gtb z n)
  | Some (NFloat f) => Ok (float_gt_int f n)
  | None => Raise TypeError
  end.

(** [v == s] for a string literal [s]. *)
Definition py_eq_str (v : json) (s : string) : bool :=
  match v with
  | JStr t => String.eqb t s
  | _ => false
  end.

(** [s in t] for two strings: substring test. *)
Definition str_contains (s t : string) : bool :=
  match String.index 0 s t with
  | Some _ => true
  | None => false
  end.

(** [k in v] for a string literal [k] and an arbitrary value [v]: key
    membership for a dict, element membership for a list, substring for a
    string, [TypeError] for anything that is not a container. *)
Definition contains (k : string) (v : json) : result bool :=
  match v with
  | JDict d => Ok (dict_contains k d)
  | JList l => Ok (existsb (fun x => py_eq_str x k) l)
  | JStr t => Ok (str_contains k t)
  | _ => Raise TypeError
  end.

(** [s in l] for a list literal [l] of strings. *)
Definition str_in (s : string) (l : list string) : bool :=
  existsb (String.eqb s) l.

(** [str(n)] for an [int]. *)
Definition str (n : Z) : string :=
  NilEmpty.string_of_int (Z.to_int n).

(** ** The coordinator's data *)

(** The device records of the API client, with the fields the platform
    reads. *)
Module Fountain.
Record t : Type := { id : Z; data : dict; type : string }.
End Fountain.

Module Feeder.
Record t : Type := { id : Z; data : dict; type : string }.
End Feeder.

Module LitterBox.
Record t : Type :=
  { id : Z; device_detail : dict; type : string; manually_paused : bool }.
End LitterBox.

(** [coordinator.data]: three dicts from device id to device, in insertion
    order. *)
Record PetKitData : Type :=
  { water_fountains : list (Z * Fountain.t);
    feeders : list (Z * Feeder.t);
    litter_boxes : list (Z * LitterBox.t) }.

Fixpoint devices_get (D : Type) (m : list (Z * D)) (k : Z) : option D :=
  match m with
  | [] => None
  | (k', d) :: m' => if Z.eqb k' k then Some d else devices_get m' k
  end.

(** ** The monad of property getters

    A computation reads the coordinator (the store), may raise, and hands
    the store on. *)
Definition M (A : Type) : Type := PetKitData -> result A * PetKitData.

Definition ret (A : Type) (a : A) : M A := fun s => (Ok a, s).

Definition bind (A B : Type) (m : M A) (k : A -> M B) : M B :=
  fun s =>
    match m s with
    | (Ok a, s') => k a s'
    | (Raise e, s') => (Raise e, s')
    end.

Definition lift (A : Type) (r : result A) : M A := fun s => (r, s).

(** [self.coordinator.data] *)
Definition coordinator_data : M PetKitData := fun s => (Ok s, s).

Notation "x <- m ;; k" := (bind m (fun x => k))
  (at level 61, m at next level, right associativity).

(** [m[k]] on one of the coordinator's dicts. *)
Definition device (D : Type) (m : list (Z * D)) (k : Z) : M D :=
  match devices_get m k with
  | Some d => ret d
  | None => lift (Raise KeyError)
  end.

(** The value a computation returns from store [s]. *)
Definition eval (A : Type) (m : M A) (s : PetKitData) : result A := fst (m s).

(** ** Entities *)

Inductive entity_class : Type :=
| WFWater | FoodLevel | BatteryInstalled | BatteryCharging
| LBBinFull | LBLitterLack | LBDeodorizerLack | LBManuallyPaused
| FoodLevelHopper1 | FoodLevelHopper2 | CameraStatus | Eating | Feeding
| LBBWastePresence | CarePlusSubscription | WFElectricStatus | WFPumpStatus.

(** An entity object: its class and the device id its constructor stored
    ([wf_id], [feeder_id] or [lb_id]). *)
Record entity : Type := Entity { cls : entity_class; dev_id : Z }.

(** ** [async_setup_entry] *)

(** One pass of a [for k, v in items] loop that grows [binary_sensors]. *)
Fixpoint for_items (D : Type) (items : list (Z * D))
    (body : Z -> D -> list entity -> M (list entity))
    (binary_sensors : list entity) : M (list entity) :=
  match items with
  | [] => ret binary_sensors
  | (k, v) :: rest =>
      binary_sensors <- body k v binary_sensors ;;
      for_items rest body binary_sensors
  end.

Definition fountain_body (wf_id : Z) (wf_data : Fountain.t)
    (binary_sensors : list entity) : M (list entity) :=
  let binary_sensors := binary_sensors ++ [Entity WFWater wf_id] in
  let binary_sensors :=
    if String.eqb (Fountain.type wf_data) "ctw3"
    then binary_sensors
           ++ [Entity WFElectricStatus wf_id; Entity WFPumpStatus wf_id]
    else binary_sensors in
  ret binary_sensors.

Definition feeder_body (feeder_id : Z) (feeder_data : Feeder.t)
    (binary_sensors : list entity) : M (list entity) :=
  let type := Feeder.type feeder_data in
  let binary_sensors :=
    if negb (str_in type ["d4s"; "d4sh"])
    then binary_sensors ++ [Entity FoodLevel feeder_id]
    else binary_sensors in
  let binary_sensors :=
    if str_in type ["d4"; "d4s"; "d4sh"]
    then binary_sensors ++ [Entity BatteryInstalled feeder_id]
    else binary_sensors in
  let binary_sensors :=
    if str_in type ["d4s"; "d4sh"]
    then binary_sensors
           ++ [Entity FoodLevelHopper1 feeder_id;
               Entity FoodLevelHopper2 feeder_id]
    else binary_sensors in
  let binary_sensors :=
    if String.eqb type "d4sh"
    then binary_sensors
           ++ [Entity CameraStatus feeder_id; Entity Eating feeder_id;
               Entity Feeding feeder_id;
               Entity CarePlusSubscription feeder_id]
    else binary_sensors in
  let binary_sensors :=
    if String.eqb type "d3"
    then binary_sensors ++ [Entity BatteryCharging feeder_id]
    else binary_sensors in
  ret binary_sensors.

Definition litter_box_body (lb_id : Z) (lb_data : LitterBox.t)
    (binary_sensors : list entity) : M (list entity) :=
  let type := LitterBox.type lb_data in
  let device_detail := LitterBox.device_detail lb_data in
  let binary_sensors :=
    if str_in type ["t3"; "t4"; "t6"]
    then binary_sensors
           ++ [Entity LBBinFull lb_id; Entity LBLitterLack lb_id]
    else binary_sensors in
  let binary_sensors :=
    if String.eqb type "t3" || dict_contains "k3Device" device_detail
    then binary_sensors ++ [Entity LBDeodorizerLack lb_id]
    else binary_sensors in
  let binary_sensors :=
    if String.eqb type "t3"
    then binary_sensors ++ [Entity LBManuallyPaused lb_id]
    else binary_sensors in
  state <- lift (getitem device_detail "state") ;;
  has_box_state <- lift (contains "boxState" state) ;;
  ret (if has_box_state : bool
       then binary_sensors ++ [Entity LBBWastePresence lb_id]
       else binary_sensors).

(** The setup fetches the coordinator from [hass.data] (here: the store),
    fills [binary_sensors] in three loops and hands the list to
    [async_add_entities]; when an exception escapes, nothing is handed
    over. *)
Definition async_setup_entry : M (list entity) :=
  binary_sensors <- ret [] ;;
  data <- coordinator_data ;;
  binary_sensors <-
    for_items (water_fountains data) fountain_body binary_sensors ;;
  data <- coordinator_data ;;
  binary_sensors <- for_items (feeders data) feeder_body binary_sensors ;;
  data <- coordinator_data ;;
  binary_sensors <-
    for_items (litter_boxes data) litter_box_body binary_sensors ;;
  ret binary_sensors.

(** ** What the properties return *)

Inductive BinarySensorDeviceClass : Type :=
| PROBLEM | BATTERY_CHARGING | OCCUPANCY | POWER.

Inductive EntityCategory : Type :=
| DIAGNOSTIC.

(** The dict literal built by [device_info]; ["identifiers"] is a set of
    (domain, device id) pairs. *)
Record DeviceInfo : Type :=
  { identifiers : list (string * Z);
    name : json;
    manufacturer : string;
    model : string;
    sw_version : string }.

(** What the platform imports and this file does not define: the constants
    of [const.py] ([DOMAIN], and the three model-name tables, the fountain
    one keyed by integer type codes) and Python's formatting of a value
    inside an f-string. *)
Record Host : Type :=
  { DOMAIN : string;
    FEEDERS : list (string * string);
    LITTER_BOXES : list (string * string);
    WATER_FOUNTAINS : list (Z * string);
    format_value : json -> string }.

(** [table[k]] on a model-name table keyed by strings. *)
Fixpoint table_getitem (table : list (string * string)) (k : string)
    : result string :=
  match table with
  | [] => Raise KeyError
  | (k', v) :: rest => if String.eqb k' k then Ok v else table_getitem rest k
  end.

Fixpoint table_find (table : list (Z * string)) (k : json) : option string :=
  match table with
  | [] => None
  | (k', v) :: rest => if py_eq_int k k' then Some v else table_find rest k
  end.

(** [table.get(k, default)] on a table keyed by integers: a list or a dict
    cannot be hashed, any other value is looked up by equality. *)
Definition table_get (table : list (Z * string)) (k : json)
    (default : string) : result string :=
  match k with
  | JList _ | JDict _ => Raise TypeError
  | _ => match table_find table k with
         | Some v => Ok v
         | None => Ok default
         end
  end.

(** [d[k1][k2]] *)
Definition getitem2 (d : dict) (k1 k2 : string) : result json :=
  match getitem d k1 with
  | Ok v => subscript v k2
  | Raise e => Raise e
  end.

(** Truth value of a Python object, as tested by [if]. *)
Definition truthy (v : json) : bool :=
  match v with
  | JNull => false
  | JBool b => b
  | JInt z => negb (Z.eqb z 0)
  | JFloat (FFin q) => negb (Qeq_bool q 0)
  | JFloat _ => true
  | JStr s => negb (String.eqb s "")
  | JList l => match l with [] => false | _ => true end
  | JDict d => match d with [] => false | _ => true end
  end.

(** The three [device_info] bodies.  The source repeats each of them in
    every class of the same device kind; the entries are evaluated in the
    order of the dict literal.  The source looks the device up anew at
    every [self.wf_data]; nothing writes in between, so one lookup stands
    for all of them. *)
Definition fountain_device_info (h : Host) (wf : Fountain.t) : M DeviceInfo :=
  let data := Fountain.data wf in
  name <- lift (getitem data "name") ;;
  model <-
    (if dict_contains "typeCode" data
     then typeCode <- lift (getitem data "typeCode") ;;
          lift (table_get (WATER_FOUNTAINS h) typeCode
                  "Unidentified Water Fountain")
     else ret "Unidentified Water Fountain") ;;
  hardware <- lift (getitem data "hardware") ;;
  firmware <- lift (getitem data "firmware") ;;
  ret {| identifiers := [(DOMAIN h, Fountain.id wf)];
         name := name;
         manufacturer := "PetKit";
         model := model;
         sw_version :=
           String.append (format_value h hardware)
             (String.append "." (format_value h firmware)) |}.

Definition feeder_device_info (h : Host) (feeder : Feeder.t) : M DeviceInfo :=
  let data := Feeder.data feeder in
  name <- lift (getitem data "name") ;;
  model <- lift (table_getitem (FEEDERS h) (Feeder.type feeder)) ;;
  firmware <- lift (getitem data "firmware") ;;
  ret {| identifiers := [(DOMAIN h, Feeder.id feeder)];
         name := name;
         manufacturer := "PetKit";
         model := model;
         sw_version := format_value h firmware |}.

Definition litter_box_device_info (h : Host) (lb : LitterBox.t)
    : M DeviceInfo :=
  let device_detail := LitterBox.device_detail lb in
  name <- lift (getitem device_detail "name") ;;
  model <- lift (table_getitem (LITTER_BOXES h) (LitterBox.type lb)) ;;
  firmware <- lift (getitem device_detail "firmware") ;;
  ret {| identifiers := [(DOMAIN h, LitterBox.id lb)];
         name := name;
         manufacturer := "PetKit";
         model := model;
         sw_version := format_value h firmware |}.

(** [self.coordinator.data.<kind>[self.<kind>_id]]: the getter every class
    of a device kind defines under the name [wf_data], [feeder_data] or
    [lb_data].  In the class modules below [self] is the device id the
    constructor stored. *)
Definition fountain_of (wf_id : Z) : M Fountain.t :=
  data <- coordinator_data ;; device (water_fountains data) wf_id.

Definition feeder_of (feeder_id : Z) : M Feeder.t :=
  data <- coordinator_data ;; device (feeders data) feeder_id.

Definition litter_box_of (lb_id : Z) : M LitterBox.t :=
  data <- coordinator_data ;; device (litter_boxes data) lb_id.

(** ** The entity classes *)

(** Water fountain, lack of water: on when [lackWarning] is 1. *)
Module WFWater.
Definition wf_data (self : Z) : M Fountain.t := fountain_of self.
Definition device_info (h : Host) (self : Z) : M DeviceInfo :=
  wf <- wf_data self ;; fountain_device_info h wf.
Definition unique_id (self : Z) : M string :=
  wf <- wf_data self ;;
  ret (String.append (str (Fountain.id wf)) "_water_level").
Definition has_entity_name (self : Z) : M bool := ret true.
Definition translation_key (self : Z) : M string := ret "water_level".
Definition device_class (self : Z) : M BinarySensorDeviceClass :=
  ret PROBLEM.
Definition is_on (self : Z) : M json :=
  wf <- wf_data self ;;
  lackWarning <- lift (getitem (Fountain.data wf) "lackWarning") ;;
  if py_eq_int lackWarning 1 then ret (JBool true) else ret (JBool false).
Definition icon (self : Z) : M json :=
  wf <- wf_data self ;;
  lackWarning <- lift (getitem (Fountain.data wf) "lackWarning") ;;
  if py_eq_int lackWarning 1
  then ret (JStr "mdi:water-alert")
  else ret (JStr "mdi:water").
End WFWater.

(** Feeder, lack of food: the test depends on the feeder type. *)
Module FoodLevel.
Definition feeder_data (self : Z) : M Feeder.t := feeder_of self.
Definition device_info (h : Host) (self : Z) : M DeviceInfo :=
  feeder <- feeder_data self ;; feeder_device_info h feeder.
Definition unique_id (self : Z) : M string :=
  feeder <- feeder_data self ;;
  ret (String.append (str (Feeder.id feeder)) "_food_level").
Definition has_entity_name (self : Z) : M bool := ret true.
Definition translation_key (self : Z) : M string := ret "food_level".
Definition device_class (self : Z) : M BinarySensorDeviceClass :=
  ret PROBLEM.
(** Two [if] statements in a row; a call that enters neither falls off
    the end of the function and returns [None]. *)
Definition is_on (self : Z) : M json :=
  feeder <- feeder_data self ;;
  if String.eqb (Feeder.type feeder) "d3"
  then
    food <- lift (getitem2 (Feeder.data feeder) "state" "food") ;;
    below <- lift (py_lt_int food 2) ;;
    if below : bool then ret (JBool true) else ret (JBool false)
  else
    if negb (String.eqb (Feeder.type feeder) "d3")
    then
      food <- lift (getitem2 (Feeder.data feeder) "state" "food") ;;
      if py_eq_int food 0 then ret (JBool true) else ret (JBool false)
    else ret JNull.
Definition icon (self : Z) : M json :=
  feeder <- feeder_data self ;;
  if String.eqb (Feeder.type feeder) "d3"
  then
    food <- lift (getitem2 (Feeder.data feeder) "state" "food") ;;
    below <- lift (py_lt_int food 2) ;;
    if below : bool
    then ret (JStr "mdi:food-drumstick-off")
    else ret (JStr "mdi:food-drumstick")
  else
    if negb (String.eqb (Feeder.type feeder) "d3")
    then
      food <- lift (getitem2 (Feeder.data feeder) "state" "food") ;;
      if py_eq_int food 0
      then ret (JStr "mdi:food-drumstick-off")
      else ret (JStr "mdi:food-drumstick")
    else ret JNull.
End FoodLevel.

(** Feeder, batteries installed: on when [batteryPower] is 1.  No
    [device_class]. *)
Module BatteryInstalled.
Definition feeder_data (self : Z) : M Feeder.t := feeder_of self.
Definition device_info (h : Host) (self : Z) : M DeviceInfo :=
  feeder <- feeder_data self ;; feeder_device_info h feeder.
Definition unique_id (self : Z) : M string :=
  feeder <- feeder_data self ;;
  ret (String.append (str (Feeder.id feeder)) "_battery_installed").
Definition has_entity_name (self : Z) : M bool := ret true.
Definition translation_key (self : Z) : M string :=
  ret "battery_installed".
Definition entity_category (self : Z) : M EntityCategory :=
  ret DIAGNOSTIC.
Definition is_on (self : Z) : M json :=
  feeder <- feeder_data self ;;
  batteryPower <- lift (getitem2 (Feeder.data feeder) "state" "batteryPower") ;;
  if py_eq_int batteryPower 1 then ret (JBool true) else ret (JBool false).
Definition icon (self : Z) : M json := ret (JStr "mdi:battery").
End BatteryInstalled.

(** Feeder, battery charging: on when [charge] is above 1. *)
Module BatteryCharging.
Definition feeder_data (self : Z) : M Feeder.t := feeder_of self.
Definition device_info (h : Host) (self : Z) : M DeviceInfo :=
  feeder <- feeder_data self ;; feeder_device_info h feeder.
Definition unique_id (self : Z) : M string :=
  feeder <- feeder_data self ;;
  ret (String.append (str (Feeder.id feeder)) "_battery_charging").
Definition has_entity_name (self : Z) : M bool := ret true.
Definition translation_key (self : Z) : M string :=
  ret "battery".
Definition entity_category (self : Z) : M EntityCategory :=
  ret DIAGNOSTIC.
Definition device_class (self : Z) : M BinarySensorDeviceClass :=
  ret BATTERY_CHARGING.
Definition is_on (self : Z) : M json :=
  feeder <- feeder_data self ;;
  charge <- lift (getitem2 (Feeder.data feeder) "state" "charge") ;;
  charging <- lift (py_gt_int charge 1) ;;
  if charging : bool then ret (JBool true) else ret (JBool false).
Definition icon (self : Z) : M json := ret (JStr "mdi:battery").
End BatteryCharging.

(** Feeder, lack of food in hopper 1: [is_on] tests [< 1], [icon] tests
    [== 0]. *)
Module FoodLevelHopper1.
Definition feeder_data (self : Z) : M Feeder.t := feeder_of self.
Definition device_info (h : Host) (self : Z) : M DeviceInfo :=
  feeder <- feeder_data self ;; feeder_device_info h feeder.
Definition unique_id (self : Z) : M string :=
  feeder <- feeder_data self ;;
  ret (String.append (str (Feeder.id feeder)) "_food_level_hopper_1").
Definition has_entity_name (self : Z) : M bool := ret true.
Definition translation_key (self : Z) : M string :=
  ret "food_level_hopper_one".
Definition device_class (self : Z) : M BinarySensorDeviceClass :=
  ret PROBLEM.
Definition is_on (self : Z) : M json :=
  feeder <- feeder_data self ;;
  food1 <- lift (getitem2 (Feeder.data feeder) "state" "food1") ;;
  below <- lift (py_lt_int food1 1) ;;
  if below : bool then ret (JBool true) else ret (JBool false).
Definition icon (self : Z) : M json :=
  feeder <- feeder_data self ;;
  food1 <- lift (getitem2 (Feeder.data feeder) "state" "food1") ;;
  if py_eq_int food1 0
  then ret (JStr "mdi:food-drumstick-off")
  else ret (JStr "mdi:food-drumstick").
End FoodLevelHopper1.

(** Feeder, lack of food in hopper 2: [is_on] tests [< 1], [icon] tests
    [== 0]. *)
Module FoodLevelHopper2.
Definition feeder_data (self : Z) : M Feeder.t := feeder_of self.
Definition device_info (h : Host) (self : Z) : M DeviceInfo :=
  feeder <- feeder_data self ;; feeder_device_info h feeder.
Definition unique_id (self : Z) : M string :=
  feeder <- feeder_data self ;;
  ret (String.append (str (Feeder.id feeder)) "_food_level_hopper_2").
Definition has_entity_name (self : Z) : M bool := ret true.
Definition translation_key (self : Z) : M string :=
  ret "food_level_hopper_two".
Definition device_class (self : Z) : M BinarySensorDeviceClass :=
  ret PROBLEM.
Definition is_on (self : Z) : M json :=
  feeder <- feeder_data self ;;
  food2 <- lift (getitem2 (Feeder.data feeder) "state" "food2") ;;
  below <- lift (py_lt_int food2 1) ;;
  if below : bool then ret (JBool true) else ret (JBool false).
Definition icon (self : Z) : M json :=
  feeder <- feeder_data self ;;
  food2 <- lift (getitem2 (Feeder.data feeder) "state" "food2") ;;
  if py_eq_int food2 0
  then ret (JStr "mdi:food-drumstick-off")
  else ret (JStr "mdi:food-drumstick").
End FoodLevelHopper2.

(** Feeder, camera switched on: on when [cameraStatus] is 1.  No
    [device_class]. *)
Module CameraStatus.
Definition feeder_data (self : Z) : M Feeder.t := feeder_of self.
Definition device_info (h : Host) (self : Z) : M DeviceInfo :=
  feeder <- feeder_data self ;; feeder_device_info h feeder.
Definition unique_id (self : Z) : M string :=
  feeder <- feeder_data self ;;
  ret (String.append (str (Feeder.id feeder)) "_camera_status").
Definition has_entity_name (self : Z) : M bool := ret true.
Definition translation_key (self : Z) : M string :=
  ret "camera_status".
Definition entity_category (self : Z) : M EntityCategory :=
  ret DIAGNOSTIC.
Definition is_on (self : Z) : M json :=
  feeder <- feeder_data self ;;
  cameraStatus <- lift (getitem2 (Feeder.data feeder) "state" "cameraStatus") ;;
  if py_eq_int cameraStatus 1 then ret (JBool true) else ret (JBool false).
Definition icon (self : Z) : M json :=
  feeder <- feeder_data self ;;
  cameraStatus <-
    lift (getitem2 (Feeder.data feeder) "state" "cameraStatus") ;;
  if py_eq_int cameraStatus 1
  then ret (JStr "mdi:cctv")
  else ret (JStr "mdi:cctv-off").
End CameraStatus.

(** Feeder, a pet is eating: on when [eating] is 1. *)
Module Eating.
Definition feeder_data (self : Z) : M Feeder.t := feeder_of self.
Definition device_info (h : Host) (self : Z) : M DeviceInfo :=
  feeder <- feeder_data self ;; feeder_device_info h feeder.
Definition unique_id (self : Z) : M string :=
  feeder <- feeder_data self ;;
  ret (String.append (str (Feeder.id feeder)) "_eating").
Definition has_entity_name (self : Z) : M bool := ret true.
Definition translation_key (self : Z) : M string :=
  ret "eating".
Definition device_class (self : Z) : M BinarySensorDeviceClass :=
  ret OCCUPANCY.
Definition is_on (self : Z) : M json :=
  feeder <- feeder_data self ;;
  eating <- lift (getitem2 (Feeder.data feeder) "state" "eating") ;;
  if py_eq_int eating 1 then ret (JBool true) else ret (JBool false).
Definition icon (self : Z) : M json := ret (JStr "mdi:silverware-fork-knife").
End Eating.

(** Feeder, food is being dispensed: on when [feeding] is 1. *)
Module Feeding.
Definition feeder_data (self : Z) : M Feeder.t := feeder_of self.
Definition device_info (h : Host) (self : Z) : M DeviceInfo :=
  feeder <- feeder_data self ;; feeder_device_info h feeder.
Definition unique_id (self : Z) : M string :=
  feeder <- feeder_data self ;;
  ret (String.append (str (Feeder.id feeder)) "_feeding").
Definition has_entity_name (self : Z) : M bool := ret true.
Definition translation_key (self : Z) : M string :=
  ret "feeding".
Definition device_class (self : Z) : M BinarySensorDeviceClass :=
  ret OCCUPANCY.
Definition is_on (self : Z) : M json :=
  feeder <- feeder_data self ;;
  feeding <- lift (getitem2 (Feeder.data feeder) "state" "feeding") ;;
  if py_eq_int feeding 1 then ret (JBool true) else ret (JBool false).
Definition icon (self : Z) : M json := ret (JStr "mdi:shaker-outline").
End Feeding.

(** Feeder, Care+ subscription: on when [cloudProduct.subscribe] is 1.  No
    [device_class]. *)
Module CarePlusSubscription.
Definition feeder_data (self : Z) : M Feeder.t := feeder_of self.
Definition device_info (h : Host) (self : Z) : M DeviceInfo :=
  feeder <- feeder_data self ;; feeder_device_info h feeder.
Definition unique_id (self : Z) : M string :=
  feeder <- feeder_data self ;;
  ret (String.append (str (Feeder.id feeder)) "_care_plus_subscription").
Definition has_entity_name (self : Z) : M bool := ret true.
Definition translation_key (self : Z) : M string :=
  ret "care_plus_subscription".
Definition entity_category (self : Z) : M EntityCategory :=
  ret DIAGNOSTIC.
Definition is_on (self : Z) : M json :=
  feeder <- feeder_data self ;;
  subscribe <-
    lift (getitem2 (Feeder.data feeder) "cloudProduct" "subscribe") ;;
  ret (JBool (py_eq_int subscribe 1)).
Definition icon (self : Z) : M json :=
  feeder <- feeder_data self ;;
  subscribe <-
    lift (getitem2 (Feeder.data feeder) "cloudProduct" "subscribe") ;;
  if py_eq_int subscribe 1
  then ret (JStr "mdi:check-circle")
  else ret (JStr "mdi:cancel").
End CarePlusSubscription.

(** Litter box, wastebin full: [is_on] is the [boxFull] field itself. *)
Module LBBinFull.
Definition lb_data (self : Z) : M LitterBox.t := litter_box_of self.
Definition device_info (h : Host) (self : Z) : M DeviceInfo :=
  lb <- lb_data self ;; litter_box_device_info h lb.
Definition unique_id (self : Z) : M string :=
  lb <- lb_data self ;;
  ret (String.append (str (LitterBox.id lb)) "_wastebin").
Definition has_entity_name (self : Z) : M bool := ret true.
Definition translation_key (self : Z) : M string := ret "wastebin".
Definition icon (self : Z) : M json := ret (JStr "mdi:delete").
Definition device_class (self : Z) : M BinarySensorDeviceClass :=
  ret PROBLEM.
Definition is_on (self : Z) : M json :=
  lb <- lb_data self ;;
  lift (getitem2 (LitterBox.device_detail lb) "state" "boxFull").
End LBBinFull.

(** Litter box, lack of litter: [is_on] is the [sandLack] field itself. *)
Module LBLitterLack.
Definition lb_data (self : Z) : M LitterBox.t := litter_box_of self.
Definition device_info (h : Host) (self : Z) : M DeviceInfo :=
  lb <- lb_data self ;; litter_box_device_info h lb.
Definition unique_id (self : Z) : M string :=
  lb <- lb_data self ;;
  ret (String.append (str (LitterBox.id lb)) "_litter_lack").
Definition has_entity_name (self : Z) : M bool := ret true.
Definition translation_key (self : Z) : M string := ret "litter".
Definition icon (self : Z) : M json := ret (JStr "mdi:landslide").
Definition device_class (self : Z) : M BinarySensorDeviceClass :=
  ret PROBLEM.
Definition is_on (self : Z) : M json :=
  lb <- lb_data self ;;
  lift (getitem2 (LitterBox.device_detail lb) "state" "sandLack").
End LBLitterLack.

(** Litter box, lack of deodorizer: [is_on] is the [liquidLack] field
    itself; the only class with an [available] of its own. *)
Module LBDeodorizerLack.
Definition lb_data (self : Z) : M LitterBox.t := litter_box_of self.
Definition device_info (h : Host) (self : Z) : M DeviceInfo :=
  lb <- lb_data self ;; litter_box_device_info h lb.
Definition unique_id (self : Z) : M string :=
  lb <- lb_data self ;;
  ret (String.append (str (LitterBox.id lb)) "_deodorizer_lack").
Definition has_entity_name (self : Z) : M bool := ret true.
Definition translation_key (self : Z) : M string :=
  lb <- lb_data self ;;
  if dict_contains "k3Device" (LitterBox.device_detail lb)
  then ret "pura_air_liquid"
  else ret "deodorizer".
Definition icon (self : Z) : M json :=
  lb <- lb_data self ;;
  if dict_contains "k3Device" (LitterBox.device_detail lb)
  then ret (JStr "mdi:cup")
  else ret (JStr "mdi:spray").
Definition device_class (self : Z) : M BinarySensorDeviceClass :=
  ret PROBLEM.
Definition is_on (self : Z) : M json :=
  lb <- lb_data self ;;
  lift (getitem2 (LitterBox.device_detail lb) "state" "liquidLack").
Definition available (self : Z) : M bool :=
  lb <- lb_data self ;;
  if String.eqb (LitterBox.type lb) "t4"
  then
    if dict_contains "k3Device" (LitterBox.device_detail lb)
    then ret true
    else ret false
  else ret true.
End LBDeodorizerLack.

(** Litter box, paused by the user: [is_on] is the record's
    [manually_paused].  No [device_class]. *)
Module LBManuallyPaused.
Definition lb_data (self : Z) : M LitterBox.t := litter_box_of self.
Definition device_info (h : Host) (self : Z) : M DeviceInfo :=
  lb <- lb_data self ;; litter_box_device_info h lb.
Definition unique_id (self : Z) : M string :=
  lb <- lb_data self ;;
  ret (String.append (str (LitterBox.id lb)) "_manually_paused").
Definition has_entity_name (self : Z) : M bool := ret true.
Definition translation_key (self : Z) : M string := ret "manually_paused".
Definition icon (self : Z) : M json := ret (JStr "mdi:pause").
Definition entity_category (self : Z) : M EntityCategory :=
  ret DIAGNOSTIC.
Definition is_on (self : Z) : M json :=
  lb <- lb_data self ;;
  ret (JBool (LitterBox.manually_paused lb)).
End LBManuallyPaused.

(** Litter box, wastebin missing: on unless [boxState] is 1. *)
Module LBBWastePresence.
Definition lb_data (self : Z) : M LitterBox.t := litter_box_of self.
Definition device_info (h : Host) (self : Z) : M DeviceInfo :=
  lb <- lb_data self ;; litter_box_device_info h lb.
Definition unique_id (self : Z) : M string :=
  lb <- lb_data self ;;
  ret (String.append (str (LitterBox.id lb)) "_wastebin_presence").
Definition has_entity_name (self : Z) : M bool := ret true.
Definition translation_key (self : Z) : M string := ret "waste_bin_presence".
Definition icon (self : Z) : M json :=
  lb <- lb_data self ;;
  boxState <- lift (getitem2 (LitterBox.device_detail lb) "state" "boxState") ;;
  if py_eq_int boxState 1
  then ret (JStr "mdi:inbox")
  else ret (JStr "mdi:inbox-remove").
Definition device_class (self : Z) : M BinarySensorDeviceClass :=
  ret PROBLEM.
Definition is_on (self : Z) : M json :=
  lb <- lb_data self ;;
  boxState <- lift (getitem2 (LitterBox.device_detail lb) "state" "boxState") ;;
  if py_eq_int boxState 1 then ret (JBool false) else ret (JBool true).
End LBBWastePresence.

(** Water fountain, plugged in: on when [electricStatus] is above 0. *)
Module WFElectricStatus.
Definition wf_data (self : Z) : M Fountain.t := fountain_of self.
Definition device_info (h : Host) (self : Z) : M DeviceInfo :=
  wf <- wf_data self ;; fountain_device_info h wf.
Definition unique_id (self : Z) : M string :=
  wf <- wf_data self ;;
  ret (String.append (str (Fountain.id wf)) "_electric_status").
Definition has_entity_name (self : Z) : M bool := ret true.
Definition translation_key (self : Z) : M string := ret "electric_status".
Definition device_class (self : Z) : M BinarySensorDeviceClass :=
  ret POWER.
Definition is_on (self : Z) : M json :=
  wf <- wf_data self ;;
  electricStatus <-
    lift (getitem2 (Fountain.data wf) "status" "electricStatus") ;;
  plugged <- lift (py_gt_int electricStatus 0) ;;
  ret (JBool plugged).
Definition icon (self : Z) : M json :=
  on <- is_on self ;;
  if truthy on
  then ret (JStr "mdi:power-plug")
  else ret (JStr "mdi:power-plug-off").
End WFElectricStatus.

(** Water fountain, pump running: on when [runStatus] is 1. *)
Module WFPumpStatus.
Definition wf_data (self : Z) : M Fountain.t := fountain_of self.
Definition device_info (h : Host) (self : Z) : M DeviceInfo :=
  wf <- wf_data self ;; fountain_device_info h wf.
Definition unique_id (self : Z) : M string :=
  wf <- wf_data self ;;
  ret (String.append (str (Fountain.id wf)) "_pump_status").
Definition has_entity_name (self : Z) : M bool := ret true.
Definition translation_key (self : Z) : M string := ret "pump_status".
Definition device_class (self : Z) : M BinarySensorDeviceClass :=
  ret POWER.
Definition is_on (self : Z) : M json :=
  wf <- wf_data self ;;
  runStatus <- lift (getitem2 (Fountain.data wf) "status" "runStatus") ;;
  ret (JBool (py_eq_int runStatus 1)).
Definition icon (self : Z) : M json :=
  on <- is_on self ;;
  if truthy on
  then ret (JStr "mdi:water-pump")
  else ret (JStr "mdi:water-pump-off").
End WFPumpStatus.

(** ** The classes as a table

    Home Assistant reads an entity through its properties.  Each property
    dispatches on the entity's class; [device_class], [entity_category]
    and [available] answer [None] where the class body has no such
    definition and the host's base classes take over. *)

Definition is_on (e : entity) : M json :=
  let self := dev_id e in
  match cls e with
  | WFWater => WFWater.is_on self
  | FoodLevel => FoodLevel.is_on self
  | BatteryInstalled => BatteryInstalled.is_on self
  | BatteryCharging => BatteryCharging.is_on self
  | LBBinFull => LBBinFull.is_on self
  | LBLitterLack => LBLitterLack.is_on self
  | LBDeodorizerLack => LBDeodorizerLack.is_on self
  | LBManuallyPaused => LBManuallyPaused.is_on self
  | FoodLevelHopper1 => FoodLevelHopper1.is_on self
  | FoodLevelHopper2 => FoodLevelHopper2.is_on self
  | CameraStatus => CameraStatus.is_on self
  | Eating => Eating.is_on self
  | Feeding => Feeding.is_on self
  | LBBWastePresence => LBBWastePresence.is_on self
  | CarePlusSubscription => CarePlusSubscription.is_on self
  | WFElectricStatus => WFElectricStatus.is_on self
  | WFPumpStatus => WFPumpStatus.is_on self
  end.

Definition icon (e : entity) : M json :=
  let self := dev_id e in
  match cls e with
  | WFWater => WFWater.icon self
  | FoodLevel => FoodLevel.icon self
  | BatteryInstalled => BatteryInstalled.icon self
  | BatteryCharging => BatteryCharging.icon self
  | LBBinFull => LBBinFull.icon self
  | LBLitterLack => LBLitterLack.icon self
  | LBDeodorizerLack => LBDeodorizerLack.icon self
  | LBManuallyPaused => LBManuallyPaused.icon self
  | FoodLevelHopper1 => FoodLevelHopper1.icon self
  | FoodLevelHopper2 => FoodLevelHopper2.icon self
  | CameraStatus => CameraStatus.icon self
  | Eating => Eating.icon self
  | Feeding => Feeding.icon self
  | LBBWastePresence => LBBWastePresence.icon self
  | CarePlusSubscription => CarePlusSubscription.icon self
  | WFElectricStatus => WFElectricStatus.icon self
  | WFPumpStatus => WFPumpStatus.icon self
  end.

Definition unique_id (e : entity) : M string :=
  let self := dev_id e in
  match cls e with
  | WFWater => WFWater.unique_id self
  | FoodLevel => FoodLevel.unique_id self
  | BatteryInstalled => BatteryInstalled.unique_id self
  | BatteryCharging => BatteryCharging.unique_id self
  | LBBinFull => LBBinFull.unique_id self
  | LBLitterLack => LBLitterLack.unique_id self
  | LBDeodorizerLack => LBDeodorizerLack.unique_id self
  | LBManuallyPaused => LBManuallyPaused.unique_id self
  | FoodLevelHopper1 => FoodLevelHopper1.unique_id self
  | FoodLevelHopper2 => FoodLevelHopper2.unique_id self
  | CameraStatus => CameraStatus.unique_id self
  | Eating => Eating.unique_id self
  | Feeding => Feeding.unique_id self
  | LBBWastePresence => LBBWastePresence.unique_id self
  | CarePlusSubscription => CarePlusSubscription.unique_id self
  | WFElectricStatus => WFElectricStatus.unique_id self
  | WFPumpStatus => WFPumpStatus.unique_id self
  end.

Definition translation_key (e : entity) : M string :=
  let self := dev_id e in
  match cls e with
  | WFWater => WFWater.translation_key self
  | FoodLevel => FoodLevel.translation_key self
  | BatteryInstalled => BatteryInstalled.translation_key self
  | BatteryCharging => BatteryCharging.translation_key self
  | LBBinFull => LBBinFull.translation_key self
  | LBLitterLack => LBLitterLack.translation_key self
  | LBDeodorizerLack => LBDeodorizerLack.translation_key self
  | LBManuallyPaused => LBManuallyPaused.translation_key self
  | FoodLevelHopper1 => FoodLevelHopper1.translation_key self
  | FoodLevelHopper2 => FoodLevelHopper2.translation_key self
  | CameraStatus => CameraStatus.translation_key self
  | Eating => Eating.translation_key self
  | Feeding => Feeding.translation_key self
  | LBBWastePresence => LBBWastePresence.translation_key self
  | CarePlusSubscription => CarePlusSubscription.translation_key self
  | WFElectricStatus => WFElectricStatus.translation_key self
  | WFPumpStatus => WFPumpStatus.translation_key self
  end.

Definition has_entity_name (e : entity) : M bool :=
  let self := dev_id e in
  match cls e with
  | WFWater => WFWater.has_entity_name self
  | FoodLevel => FoodLevel.has_entity_name self
  | BatteryInstalled => BatteryInstalled.has_entity_name self
  | BatteryCharging => BatteryCharging.has_entity_name self
  | LBBinFull => LBBinFull.has_entity_name self
  | LBLitterLack => LBLitterLack.has_entity_name self
  | LBDeodorizerLack => LBDeodorizerLack.has_entity_name self
  | LBManuallyPaused => LBManuallyPaused.has_entity_name self
  | FoodLevelHopper1 => FoodLevelHopper1.has_entity_name self
  | FoodLevelHopper2 => FoodLevelHopper2.has_entity_name self
  | CameraStatus => CameraStatus.has_entity_name self
  | Eating => Eating.has_entity_name self
  | Feeding => Feeding.has_entity_name self
  | LBBWastePresence => LBBWastePresence.has_entity_name self
  | CarePlusSubscription => CarePlusSubscription.has_entity_name self
  | WFElectricStatus => WFElectricStatus.has_entity_name self
  | WFPumpStatus => WFPumpStatus.has_entity_name self
  end.

Definition device_info (h : Host) (e : entity) : M DeviceInfo :=
  let self := dev_id e in
  match cls e with
  | WFWater => WFWater.device_info h self
  | FoodLevel => FoodLevel.device_info h self
  | BatteryInstalled => BatteryInstalled.device_info h self
  | BatteryCharging => BatteryCharging.device_info h self
  | LBBinFull => LBBinFull.device_info h self
  | LBLitterLack => LBLitterLack.device_info h self
  | LBDeodorizerLack => LBDeodorizerLack.device_info h self
  | LBManuallyPaused => LBManuallyPaused.device_info h self
  | FoodLevelHopper1 => FoodLevelHopper1.device_info h self
  | FoodLevelHopper2 => FoodLevelHopper2.device_info h self
  | CameraStatus => CameraStatus.device_info h self
  | Eating => Eating.device_info h self
  | Feeding => Feeding.device_info h self
  | LBBWastePresence => LBBWastePresence.device_info h self
  | CarePlusSubscription => CarePlusSubscription.device_info h self
  | WFElectricStatus => WFElectricStatus.device_info h self
  | WFPumpStatus => WFPumpStatus.device_info h self
  end.

(** [device_class], for the classes that define it. *)
Definition device_class (e : entity)
    : option (M BinarySensorDeviceClass) :=
  let self := dev_id e in
  match cls e with
  | WFWater => Some (WFWater.device_class self)
  | FoodLevel => Some (FoodLevel.device_class self)
  | BatteryCharging => Some (BatteryCharging.device_class self)
  | LBBinFull => Some (LBBinFull.device_class self)
  | LBLitterLack => Some (LBLitterLack.device_class self)
  | LBDeodorizerLack => Some (LBDeodorizerLack.device_class self)
  | FoodLevelHopper1 => Some (FoodLevelHopper1.device_class self)
  | FoodLevelHopper2 => Some (FoodLevelHopper2.device_class self)
  | Eating => Some (Eating.device_class self)
  | Feeding => Some (Feeding.device_class self)
  | LBBWastePresence => Some (LBBWastePresence.device_class self)
  | WFElectricStatus => Some (WFElectricStatus.device_class self)
  | WFPumpStatus => Some (WFPumpStatus.device_class self)
  | BatteryInstalled | LBManuallyPaused | CameraStatus
  | CarePlusSubscription => None
  end.

(** [entity_category], for the classes that define it. *)
Definition entity_category (e : entity) : option (M EntityCategory) :=
  let self := dev_id e in
  match cls e with
  | BatteryInstalled => Some (BatteryInstalled.entity_category self)
  | BatteryCharging => Some (BatteryCharging.entity_category self)
  | LBManuallyPaused => Some (LBManuallyPaused.entity_category self)
  | CameraStatus => Some (CameraStatus.entity_category self)
  | CarePlusSubscription => Some (CarePlusSubscription.entity_category self)
  | _ => None
  end.

(** [available], for the one class that defines it. *)
Definition available (e : entity) : option (M bool) :=
  match cls e with
  | LBDeodorizerLack => Some (LBDeodorizerLack.available (dev_id e))
  | _ => None
  end.

Inductive property : Type :=
| P_device_info | P_unique_id | P_has_entity_name | P_translation_key
| P_device_class | P_entity_category | P_is_on | P_icon | P_available.

Inductive pyvalue : Type :=
| VJson (v : json)
| VStr (s : string)
| VBool (b : bool)
| VDeviceClass (c : BinarySensorDeviceClass)
| VCategory (c : EntityCategory)
| VDeviceInfo (i : DeviceInfo).

Definition fmap (A B : Type) (f : A -> B) (m : M A) : M B :=
  a <- m ;; ret (f a).

Definition class_property (h : Host) (e : entity) (p : property)
    : option (M pyvalue) :=
  match p with
  | P_device_info => Some (fmap VDeviceInfo (device_info h e))
  | P_unique_id => Some (fmap VStr (unique_id e))
  | P_has_entity_name => Some (fmap VBool (has_entity_name e))
  | P_translation_key => Some (fmap VStr (translation_key e))
  | P_device_class => option_map (fmap VDeviceClass) (device_class e)
  | P_entity_category => option_map (fmap VCategory) (entity_category e)
  | P_is_on => Some (fmap VJson (is_on e))
  | P_icon => Some (fmap VJson (icon e))
  | P_available => option_map (fmap VBool) (available e)
  end.

(** ** The entity catalogue, as the specification words it *)

(** The classes, grouped by device kind, in the order the setup appends
    them. *)
Definition fountain_classes : list entity_class :=
  [WFWater; WFElectricStatus; WFPumpStatus].

Definition feeder_classes : list entity_class :=
  [FoodLevel; BatteryInstalled; FoodLevelHopper1; FoodLevelHopper2;
   CameraStatus; Eating; Feeding; CarePlusSubscription; BatteryCharging].

Definition litter_box_classes : list entity_class :=
  [LBBinFull; LBLitterLack; LBDeodorizerLack; LBManuallyPaused;
   LBBWastePresence].

Definition all_classes : list entity_class :=
  fountain_classes ++ feeder_classes ++ litter_box_classes.

(** Which classes a water fountain gets. *)
Definition fountain_gets (wf : Fountain.t) (c : entity_class) : bool :=
  match c with
  | WFWater => true
  | WFElectricStatus | WFPumpStatus => String.eqb (Fountain.type wf) "ctw3"
  | _ => false
  end.

(** Which classes a feeder gets. *)
Definition feeder_gets (feeder : Feeder.t) (c : entity_class) : bool :=
  let type := Feeder.type feeder in
  match c with
  | FoodLevel => negb (str_in type ["d4s"; "d4sh"])
  | BatteryInstalled => str_in type ["d4"; "d4s"; "d4sh"]
  | FoodLevelHopper1 | FoodLevelHopper2 => str_in type ["d4s"; "d4sh"]
  | CameraStatus | Eating | Feeding | CarePlusSubscription =>
      String.eqb type "d4sh"
  | BatteryCharging => String.eqb type "d3"
  | _ => false
  end.

(** Which classes a litter box gets, given whether ["boxState"] counts as
    present. *)
Definition litter_box_gets (lb : LitterBox.t) (has_box_state : bool)
    (c : entity_class) : bool :=
  let type := LitterBox.type lb in
  match c with
  | LBBinFull | LBLitterLack => str_in type ["t3"; "t4"; "t6"]
  | LBDeodorizerLack =>
      String.eqb type "t3"
      || dict_contains "k3Device" (LitterBox.device_detail lb)
  | LBManuallyPaused => String.eqb type "t3"
  | LBBWastePresence => has_box_state
  | _ => false
  end.

(** ["boxState"] is a key of [device_detail["state"]]. *)
Definition box_state_is_key (lb : LitterBox.t) : bool :=
  match dict_get (LitterBox.device_detail lb) "state" with
  | Some (JDict state) => dict_contains "boxState" state
  | _ => false
  end.

(** [device_detail["state"]] exists and is a dict. *)
Definition has_state_dict (lb : LitterBox.t) : Prop :=
  exists state : dict,
    dict_get (LitterBox.device_detail lb) "state" = Some (JDict state).

Definition entities_of (k : Z) (gets : entity_class -> bool) : list entity :=
  map (fun c => Entity c k) (filter gets all_classes).

(** The entities the catalogue prescribes for a coordinator's data. *)
Definition expected_entities (data : PetKitData) : list entity :=
  flat_map (fun kv => entities_of (fst kv) (fountain_gets (snd kv)))
    (water_fountains data)
  ++ flat_map (fun kv => entities_of (fst kv) (feeder_gets (snd kv)))
       (feeders data)
  ++ flat_map
       (fun kv =>
          entities_of (fst kv)
            (litter_box_gets (snd kv) (box_state_is_key (snd kv))))
       (litter_boxes data).

(** The entities Home Assistant ends up with: the list
    [async_add_entities] receives, or none when the setup raised. *)
Definition registered (data : PetKitData) : list entity :=
  match eval async_setup_entry data with
  | Ok binary_sensors => binary_sensors
  | Raise _ => []
  end.

(** What one litter box contributes to the setup, as a pure function: the
    lookup of ["state"] and the membership test may raise. *)
Definition litter_box_part (lb_id : Z) (lb : LitterBox.t)
    : result (list entity) :=
  match getitem (LitterBox.device_detail lb) "state" with
  | Ok state =>
      match contains "boxState" state with
      | Ok has_box_state =>
          Ok (entities_of lb_id (litter_box_gets lb has_box_state))
      | Raise e => Raise e
      end
  | Raise e => Raise e
  end.

(** The concatenation of the parts of all devices of one dict, stopping at
    the first exception. *)
Fixpoint collect (D : Type) (part : Z -> D -> result (list entity))
    (items : list (Z * D)) : result (list entity) :=
  match items with
  | [] => Ok []
  | (k, v) :: rest =>
      match part k v with
      | Ok l =>
          match collect part rest with
          | Ok l' => Ok (l ++ l')
          | Raise e => Raise e
          end
      | Raise e => Raise e
      end
  end.

(** ** What [is_on] reads *)

Inductive device_kind : Type :=
| KFountain | KFeeder | KLitterBox.

Definition kind_of (c : entity_class) : device_kind :=
  match c with
  | WFWater | WFElectricStatus | WFPumpStatus => KFountain
  | LBBinFull | LBLitterLack | LBDeodorizerLack | LBManuallyPaused
  | LBBWastePresence => KLitterBox
  | _ => KFeeder
  end.

(** The type code and the state blob of the device an entity belongs to. *)
Definition device_blob (data : PetKitData) (e : entity)
    : option (string * dict) :=
  match kind_of (cls e) with
  | KFountain =>
      option_map (fun wf => (Fountain.type wf, Fountain.data wf))
        (devices_get (water_fountains data) (dev_id e))
  | KFeeder =>
      option_map (fun f => (Feeder.type f, Feeder.data f))
        (devices_get (feeders data) (dev_id e))
  | KLitterBox =>
      option_map (fun lb => (LitterBox.type lb, LitterBox.device_detail lb))
        (devices_get (litter_boxes data) (dev_id e))
  end.

(** How [is_on] uses the field it reads: compared with [==], ordered with
    [<] or [>], or returned as it is. *)
Inductive field_use : Type :=
| Equated | Ordered | Returned.

(** The state field [is_on] reads (a path into the blob) and its use;
    [LBManuallyPaused] reads no field of the blob. *)
Definition is_on_field (c : entity_class) (type : string)
    : option (list string * field_use) :=
  match c with
  | WFWater => Some (["lackWarning"], Equated)
  | FoodLevel =>
      Some (["state"; "food"],
            if String.eqb type "d3" then Ordered else Equated)
  | BatteryInstalled => Some (["state"; "batteryPower"], Equated)
  | BatteryCharging => Some (["state"; "charge"], Ordered)
  | LBBinFull => Some (["state"; "boxFull"], Returned)
  | LBLitterLack => Some (["state"; "sandLack"], Returned)
  | LBDeodorizerLack => Some (["state"; "liquidLack"], Returned)
  | LBManuallyPaused => None
  | FoodLevelHopper1 => Some (["state"; "food1"], Ordered)
  | FoodLevelHopper2 => Some (["state"; "food2"], Ordered)
  | CameraStatus => Some (["state"; "cameraStatus"], Equated)
  | Eating => Some (["state"; "eating"], Equated)
  | Feeding => Some (["state"; "feeding"], Equated)
  | LBBWastePresence => Some (["state"; "boxState"], Equated)
  | CarePlusSubscription => Some (["cloudProduct"; "subscribe"], Equated)
  | WFElectricStatus => Some (["status"; "electricStatus"], Ordered)
  | WFPumpStatus => Some (["status"; "runStatus"], Equated)
  end.

Fixpoint subscript_path (v : json) (path : list string) : result json :=
  match path with
  | [] => Ok v
  | k :: rest =>
      match subscript v k with
      | Ok v' => subscript_path v' rest
      | Raise e => Raise e
      end
  end.

Definition is_boolean (v : json) : bool :=
  match v with
  | JBool _ => true
  | _ => false
  end.

Definition is_number (v : json) : bool :=
  match as_number v with
  | Some _ => true
  | None => false
  end.

Definition fits (u : field_use) (v : json) : bool :=
  match u with
  | Equated => true
  | Ordered => is_number v
  | Returned => is_boolean v
  end.

(** The field [is_on] reads is present in the entity's blob. *)
Definition is_on_field_present (data : PetKitData) (e : entity) : bool :=
  match device_blob data e with
  | Some (type, blob) =>
      match is_on_field (cls e) type with
      | Some (path, _) =>
          match subscript_path (JDict blob) path with
          | Ok _ => true
          | Raise _ => false
          end
      | None => true
      end
  | None => false
  end.

(** The field is present and holds a value of the kind its use needs. *)
Definition is_on_field_fits (data : PetKitData) (e : entity) : bool :=
  match device_blob data e with
  | Some (type, blob) =>
      match is_on_field (cls e) type with
      | Some (path, u) =>
          match subscript_path (JDict blob) path with
          | Ok v => fits u v
          | Raise _ => false
          end
      | None => true
      end
  | None => false
  end.

(** [is_on] returns a value and the value is a [bool]. *)
Definition returns_boolean (data : PetKitData) (e : entity) : Prop :=
  exists b : bool, eval (is_on e) data = Ok (JBool b).

(** ** Unique ids *)

(** The literal each class appends to the device id. *)
Definition suffix (c : entity_class) : string :=
  match c with
  | WFWater => "_water_level"
  | FoodLevel => "_food_level"
  | BatteryInstalled => "_battery_installed"
  | BatteryCharging => "_battery_charging"
  | LBBinFull => "_wastebin"
  | LBLitterLack => "_litter_lack"
  | LBDeodorizerLack => "_deodorizer_lack"
  | LBManuallyPaused => "_manually_paused"
  | FoodLevelHopper1 => "_food_level_hopper_1"
  | FoodLevelHopper2 => "_food_level_hopper_2"
  | CameraStatus => "_camera_status"
  | Eating => "_eating"
  | Feeding => "_feeding"
  | LBBWastePresence => "_wastebin_presence"
  | CarePlusSubscription => "_care_plus_subscription"
  | WFElectricStatus => "_electric_status"
  | WFPumpStatus => "_pump_status"
  end.

(** The [id] attribute of the device an entity belongs to. *)
Definition device_id_attr (data : PetKitData) (e : entity) : option Z :=
  match kind_of (cls e) with
  | KFountain =>
      option_map Fountain.id (devices_get (water_fountains data) (dev_id e))
  | KFeeder => option_map Feeder.id (devices_get (feeders data) (dev_id e))
  | KLitterBox =>
      option_map LitterBox.id (devices_get (litter_boxes data) (dev_id e))
  end.

Definition is_underscore (c : ascii) : bool := Ascii.eqb c "_"%char.

(** The part of a string before its first underscore, and the part from
    it on. *)
Fixpoint before_underscore (s : string) : string :=
  match s with
  | EmptyString => EmptyString
  | String c r =>
      if is_underscore c then EmptyString else String c (before_underscore r)
  end.

Fixpoint from_underscore (s : string) : string :=
  match s with
  | EmptyString => EmptyString
  | String c r => if is_underscore c then s else from_underscore r
  end.

Fixpoint no_underscore (s : string) : bool :=
  match s with
  | EmptyString => true
  | String c r => negb (is_underscore c) && no_underscore r
  end.

Definition starts_with_underscore (s : string) : bool :=
  match s with
  | EmptyString => false
  | String c _ => is_underscore c
  end.

(** The ids of the devices of one dict are pairwise distinct, and so are
    its keys. *)
Definition distinct_ids (D : Type) (id : D -> Z) (m : list (Z * D)) : Prop :=
  NoDup (map fst m) /\ NoDup (map (fun kv => id (snd kv)) m).

(** ** Sample data *)

Definition sample_fountain : Fountain.t :=
  {| Fountain.id := 11;
     Fountain.data :=
       [("name", JStr "Fountain"); ("typeCode", JInt 2);
        ("hardware", JInt 1); ("firmware", JInt 3);
        ("lackWarning", JInt 0);
        ("status", JDict [("electricStatus", JInt 1); ("runStatus", JInt 1)])];
     Fountain.type := "ctw3" |}.

Definition sample_feeder (id : Z) (type : string) (food : json) : Feeder.t :=
  {| Feeder.id := id;
     Feeder.data :=
       [("name", JStr "Feeder"); ("firmware", JInt 2);
        ("state",
         JDict [("food", food); ("food1", JInt 1); ("food2", JInt 0);
                ("batteryPower", JInt 1); ("charge", JInt 2);
                ("cameraStatus", JInt 1); ("eating", JInt 0);
                ("feeding", JInt 0)]);
        ("cloudProduct", JDict [("subscribe", JInt 1)])];
     Feeder.type := type |}.

Definition sample_litter_box : LitterBox.t :=
  {| LitterBox.id := 31;
     LitterBox.device_detail :=
       [("name", JStr "Pura X"); ("firmware", JInt 5);
        ("state",
         JDict [("boxFull", JBool false); ("sandLack", JBool true);
                ("liquidLack", JBool false); ("boxState", JInt 1)])];
     LitterBox.type := "t3";
     LitterBox.manually_paused := false |}.

(** One device of every kind the setup distinguishes. *)
Definition sample_data : PetKitData :=
  {| water_fountains := [(11, sample_fountain)];
     feeders :=
       [(21, sample_feeder 21 "d4sh" (JInt 0));
        (22, sample_feeder 22 "d3" (JInt 1))];
     litter_boxes := [(31, sample_litter_box)] |}.

(** A fountain next to a litter box whose [device_detail] has no ["state"]
    entry. *)
Definition stateless_box_data : PetKitData :=
  {| water_fountains := [(11, sample_fountain)];
     feeders := [];
     litter_boxes :=
       [(32, {| LitterBox.id := 32;
                LitterBox.device_detail :=
                  [("name", JStr "Pura MAX"); ("firmware", JInt 5)];
                LitterBox.type := "t4";
                LitterBox.manually_paused := false |})] |}.

(** A litter box whose ["state"] is [None]. *)
Definition null_state_data : PetKitData :=
  {| water_fountains := [(11, sample_fountain)];
     feeders := [];
     litter_boxes :=
       [(34, {| LitterBox.id := 34;
                LitterBox.device_detail :=
                  [("name", JStr "Pura MAX"); ("state", JNull)];
                LitterBox.type := "t4";
                LitterBox.manually_paused := false |})] |}.

(** A litter box that reports ["boxFull"] as the integer 1, and a D3 feeder
    that reports ["food"] as [None]. *)
Definition untyped_fields_data : PetKitData :=
  {| water_fountains := [];
     feeders := [(22, sample_feeder 22 "d3" JNull)];
     litter_boxes :=
       [(33, {| LitterBox.id := 33;
                LitterBox.device_detail :=
                  [("name", JStr "Pura X"); ("firmware", JInt 5);
                   ("state",
                    JDict [("boxFull", JInt 1); ("sandLack", JBool false);
                           ("liquidLack", JBool false)])];
                LitterBox.type := "t3";
                LitterBox.manually_paused := false |})] |}.

(** A D4 feeder. *)
Definition d4_feeder_data : PetKitData :=
  {| water_fountains := [];
     feeders := [(23, sample_feeder 23 "d4" (JInt 120))];
     litter_boxes := [] |}.

(** A D4s feeder whose two hoppers report a negative level. *)
Definition negative_hopper_data : PetKitData :=
  {| water_fountains := [];
     feeders :=
       [(24, {| Feeder.id := 24;
                Feeder.data :=
                  [("name", JStr "Feeder"); ("firmware", JInt 2);
                   ("state",
                    JDict [("food1", JInt (-1)); ("food2", JInt (-1));
                           ("batteryPower", JInt 1)])];
                Feeder.type := "d4s" |})];
     litter_boxes := [] |}.

(** The devices of [sample_data] with other blobs: an empty fountain blob,
    other food levels, a litter box that is paused and has another id. *)
Definition sample_data_other_blobs : PetKitData :=
  {| water_fountains :=
       [(11, {| Fountain.id := 11; Fountain.data := [];
                Fountain.type := "ctw3" |})];
     feeders :=
       [(21, sample_feeder 21 "d4sh" (JInt 7));
        (22, sample_feeder 22 "d3" JNull)];
     litter_boxes :=
       [(31, {| LitterBox.id := 310;
                LitterBox.device_detail :=
                  LitterBox.device_detail sample_litter_box;
                LitterBox.type := "t3";
                LitterBox.manually_paused := true |})] |}.

(** A D4 feeder whose state holds no ["food"] entry. *)
Definition foodless_feeder_data : PetKitData :=
  {| water_fountains := [];
     feeders :=
       [(26, {| Feeder.id := 26;
                Feeder.data :=
                  [("name", JStr "Feeder"); ("firmware", JInt 2);
                   ("state", JDict [("batteryPower", JInt 1)])];
                Feeder.type := "d4" |})];
     litter_boxes := [] |}.

(** A feeder of a type the sample tables do not list. *)
Definition unlisted_feeder_data : PetKitData :=
  {| water_fountains := [];
     feeders := [(25, sample_feeder 25 "d9" (JInt 40))];
     litter_boxes := [] |}.

(** Constants in the shape of [const.py], with a formatter that renders
    integers and strings and nothing else. *)
Definition sample_host : Host :=
  {| DOMAIN := "petkit";
     FEEDERS := [("d3", "Fresh Element Infinity"); ("d4", "Fresh Element Solo");
                 ("d4s", "Fresh Element Gemini"); ("d4sh", "YumShare")];
     LITTER_BOXES := [("t3", "PURA X"); ("t4", "PURA MAX")];
     WATER_FOUNTAINS := [(2, "Eversweet 5 Mini"); (4, "Eversweet 3 Pro")];
     format_value :=
       fun v =>
         match v with
         | JInt z => str z
         | JStr s => s
         | _ => EmptyString
         end |}.

(** Which properties the body of a class defines: [device_class] is
    missing from four classes, [entity_category] is present in five,
    [available] in [LBDeodorizerLack] only; the others are in all
    seventeen. *)
Definition defined_by_class (c : entity_class) (p : property) : bool :=
  match p with
  | P_device_class =>
      match c with
      | BatteryInstalled | LBManuallyPaused | CameraStatus
      | CarePlusSubscription => false
      | _ => true
      end
  | P_entity_category =>
      match c with
      | BatteryInstalled | BatteryCharging | LBManuallyPaused | CameraStatus
      | CarePlusSubscription => true
      | _ => false
      end
  | P_available =>
      match c with
      | LBDeodorizerLack => true
      | _ => false
      end
  | _ => true
  end.

(** The classes whose body has no [device_class]. *)
Definition classes_without_device_class : list entity_class :=
  [BatteryInstalled; LBManuallyPaused; CameraStatus; CarePlusSubscription].

(** ** Notions used by the statements *)

(** A computation hands the coordinator's data on as it found it. *)
Definition read_only (A : Type) (m : M A) : Prop :=
  forall s : PetKitData, snd (m s) = s.

(** "The feeder is short of food", as [FoodLevel] understands it: a level
    below 2 on a D3, no gram left on any other feeder. *)
Definition food_is_low (type : string) (food : json) : result bool :=
  if String.eqb type "d3" then py_lt_int food 2 else Ok (py_eq_int food 0).

(** Two stores hold the same record (or none) for the device an entity
    belongs to. *)
Definition same_device (e : entity) (s1 s2 : PetKitData) : Prop :=
  match kind_of (cls e) with
  | KFountain =>
      devices_get (water_fountains s1) (dev_id e)
      = devices_get (water_fountains s2) (dev_id e)
  | KFeeder =>
      devices_get (feeders s1) (dev_id e) = devices_get (feeders s2) (dev_id e)
  | KLitterBox =>
      devices_get (litter_boxes s1) (dev_id e)
      = devices_get (litter_boxes s2) (dev_id e)
  end.

(** A computation returns the same result from any two stores related by
    [R]. *)
Definition stable (R : PetKitData -> PetKitData -> Prop) (A : Type)
    (m : M A) : Prop :=
  forall s1 s2 : PetKitData, R s1 s2 -> eval m s1 = eval m s2.

(** [device_detail["state"]] is something [in] can search: a dict, a list
    or a string. *)
Definition state_is_container (lb : LitterBox.t) : bool :=
  match dict_get (LitterBox.device_detail lb) "state" with
  | Some (JDict _) | Some (JList _) | Some (JStr _) => true
  | _ => false
  end.

(** The classes whose [icon] repeats the test of [is_on] (or calls
    [is_on]), with the icon each shows when on and when off. *)
Definition is_on_driven_icons : list entity_class :=
  [WFWater; FoodLevel; CameraStatus; LBBWastePresence; CarePlusSubscription;
   WFElectricStatus; WFPumpStatus].

Definition icon_for (c : entity_class) (on : bool) : string :=
  match c with
  | WFWater => if on then "mdi:water-alert" else "mdi:water"
  | FoodLevel => if on then "mdi:food-drumstick-off" else "mdi:food-drumstick"
  | CameraStatus => if on then "mdi:cctv" else "mdi:cctv-off"
  | LBBWastePresence => if on then "mdi:inbox-remove" else "mdi:inbox"
  | CarePlusSubscription => if on then "mdi:check-circle" else "mdi:cancel"
  | WFElectricStatus => if on then "mdi:power-plug" else "mdi:power-plug-off"
  | WFPumpStatus => if on then "mdi:water-pump" else "mdi:water-pump-off"
  | _ => EmptyString
  end.

(** The translation keys a class can answer with. *)
Definition translation_keys (c : entity_class) : list string :=
  match c with
  | WFWater => ["water_level"]
  | FoodLevel => ["food_level"]
  | BatteryInstalled => ["battery_installed"]
  | BatteryCharging => ["battery"]
  | LBBinFull => ["wastebin"]
  | LBLitterLack => ["litter"]
  | LBDeodorizerLack => ["pura_air_liquid"; "deodorizer"]
  | LBManuallyPaused => ["manually_paused"]
  | FoodLevelHopper1 => ["food_level_hopper_one"]
  | FoodLevelHopper2 => ["food_level_hopper_two"]
  | CameraStatus => ["camera_status"]
  | Eating => ["eating"]
  | Feeding => ["feeding"]
  | LBBWastePresence => ["waste_bin_presence"]
  | CarePlusSubscription => ["care_plus_subscription"]
  | WFElectricStatus => ["electric_status"]
  | WFPumpStatus => ["pump_status"]
  end.

(** A value Python can hash, hence use as a dict key. *)
Definition hashable (v : json) : bool :=
  match v with
  | JList _ | JDict _ => false
  | _ => true
  end.

(** * Properties *)

(** ** The monad *)

Lemma read_only_ret (A : Type) (a : A) : read_only (ret a).
Proof. intro s. reflexivity. Qed.

Lemma read_only_lift (A : Type) (r : result A) : read_only (lift r).
Proof. intro s. reflexivity. Qed.

Lemma read_only_coordinator_data : read_only coordinator_data.
Proof. intro s. reflexivity. Qed.

Lemma read_only_bind (A B : Type) (m : M A) (k : A -> M B) :
  read_only m -> (forall a, read_only (k a)) -> read_only (bind m k).
Proof.
  intros Hm Hk s. unfold bind.
  specialize (Hm s). destruct (m s) as [[a | e] s']; simpl in Hm; subst s'.
  - apply Hk.
  - reflexivity.
Qed.

Lemma read_only_device (D : Type) (m : list (Z * D)) (k : Z) :
  read_only (device m k).
Proof.
  unfold device. destruct (devices_get m k).
  - apply read_only_ret.
  - apply read_only_lift.
Qed.

Ltac head_of t :=
  lazymatch t with
  | ?f _ => head_of f
  | _ => t
  end.

(** Walks through a getter: binds, returns, reads, branches, and the
    definitions in between. *)
Ltac read_only_walk :=
  cbv beta zeta; cbn [cls dev_id];
  lazymatch goal with
  | |- read_only (bind _ _) =>
      apply read_only_bind; [read_only_walk | intro; read_only_walk]
  | |- read_only (ret _) => apply read_only_ret
  | |- read_only (lift _) => apply read_only_lift
  | |- read_only coordinator_data => apply read_only_coordinator_data
  | |- read_only (device _ _) => apply read_only_device
  | |- read_only (if ?b then _ else _) => destruct b; read_only_walk
  | |- read_only ?m => let h := head_of m in unfold h; read_only_walk
  end.

Lemma eval_read_only (A : Type) (m : M A) (s : PetKitData) :
  read_only m -> m s = (eval m s, s).
Proof.
  intro H. unfold eval. specialize (H s).
  destruct (m s) as [r s']. simpl in *. now subst.
Qed.

Lemma fountain_of_ok (s : PetKitData) (k : Z) (wf : Fountain.t) :
  devices_get (water_fountains s) k = Some wf -> fountain_of k s = (Ok wf, s).
Proof.
  intro H. unfold fountain_of, bind, coordinator_data, device.
  now rewrite H.
Qed.

Lemma feeder_of_ok (s : PetKitData) (k : Z) (f : Feeder.t) :
  devices_get (feeders s) k = Some f -> feeder_of k s = (Ok f, s).
Proof.
  intro H. unfold feeder_of, bind, coordinator_data, device.
  now rewrite H.
Qed.

Lemma litter_box_of_ok (s : PetKitData) (k : Z) (lb : LitterBox.t) :
  devices_get (litter_boxes s) k = Some lb -> litter_box_of k s = (Ok lb, s).
Proof.
  intro H. unfold litter_box_of, bind, coordinator_data, device.
  now rewrite H.
Qed.

Lemma fountain_of_missing (s : PetKitData) (k : Z) :
  devices_get (water_fountains s) k = None ->
  fountain_of k s = (Raise KeyError, s).
Proof.
  intro H. unfold fountain_of, bind, coordinator_data, device.
  now rewrite H.
Qed.

Lemma feeder_of_missing (s : PetKitData) (k : Z) :
  devices_get (feeders s) k = None -> feeder_of k s = (Raise KeyError, s).
Proof.
  intro H. unfold feeder_of, bind, coordinator_data, device.
  now rewrite H.
Qed.

Lemma litter_box_of_missing (s : PetKitData) (k : Z) :
  devices_get (litter_boxes s) k = None ->
  litter_box_of k s = (Raise KeyError, s).
Proof.
  intro H. unfold litter_box_of, bind, coordinator_data, device.
  now rewrite H.
Qed.

Lemma bind_ok (A B : Type) (m : M A) (k : A -> M B) (s s' : PetKitData)
    (a : A) :
  m s = (Ok a, s') -> bind m k s = k a s'.
Proof. intro H. unfold bind. now rewrite H. Qed.

(** ** [FoodLevel] *)

Lemma food_is_low_int (type : string) (n : Z) :
  food_is_low type (JInt n)
  = Ok (if String.eqb type "d3" then Z.ltb n 2 else Z.eqb n 0).
Proof. unfold food_is_low. now destruct (String.eqb type "d3"). Qed.

Lemma FoodLevel_is_on_run (data : PetKitData) (self : Z) (feeder : Feeder.t)
    (food : json) :
  devices_get (feeders data) self = Some feeder ->
  getitem2 (Feeder.data feeder) "state" "food" = Ok food ->
  eval (FoodLevel.is_on self) data
  = match food_is_low (Feeder.type feeder) food with
    | Ok low => Ok (JBool low)
    | Raise e => Raise e
    end.
Proof.
  intros Hdev Hfood.
  unfold eval, FoodLevel.is_on, FoodLevel.feeder_data, food_is_low.
  erewrite bind_ok by (apply feeder_of_ok; eassumption).
  destruct (String.eqb (Feeder.type feeder) "d3"); simpl;
    unfold bind, lift, ret; rewrite Hfood.
  - destruct (py_lt_int food 2) as [[|]|]; reflexivity.
  - destruct (py_eq_int food 0); reflexivity.
Qed.

Lemma FoodLevel_icon_run (data : PetKitData) (self : Z) (feeder : Feeder.t)
    (food : json) :
  devices_get (feeders data) self = Some feeder ->
  getitem2 (Feeder.data feeder) "state" "food" = Ok food ->
  eval (FoodLevel.icon self) data
  = match food_is_low (Feeder.type feeder) food with
    | Ok true => Ok (JStr "mdi:food-drumstick-off")
    | Ok false => Ok (JStr "mdi:food-drumstick")
    | Raise e => Raise e
    end.
Proof.
  intros Hdev Hfood.
  unfold eval, FoodLevel.icon, FoodLevel.feeder_data, food_is_low.
  erewrite bind_ok by (apply feeder_of_ok; eassumption).
  destruct (String.eqb (Feeder.type feeder) "d3"); simpl;
    unfold bind, lift, ret; rewrite Hfood.
  - destruct (py_lt_int food 2) as [[|]|]; reflexivity.
  - destruct (py_eq_int food 0); reflexivity.
Qed.

(** Whatever the food entry holds, [is_on] and [icon] follow the test:
    both say "low" exactly when it evaluates to [True], and both say "not
    low" when it evaluates to [False]. *)
Lemma FoodLevel_follows_test (data : PetKitData) (self : Z)
    (feeder : Feeder.t) (food : json) :
  devices_get (feeders data) self = Some feeder ->
  getitem2 (Feeder.data feeder) "state" "food" = Ok food ->
  (Feeder.type feeder = "d3" ->
   food_is_low (Feeder.type feeder) food = py_lt_int food 2)
  /\ (Feeder.type feeder <> "d3" ->
      food_is_low (Feeder.type feeder) food = Ok (py_eq_int food 0))
  /\ (eval (FoodLevel.is_on self) data = Ok (JBool true)
      <-> food_is_low (Feeder.type feeder) food = Ok true)
  /\ (eval (FoodLevel.icon self) data = Ok (JStr "mdi:food-drumstick-off")
      <-> food_is_low (Feeder.type feeder) food = Ok true)
  /\ (food_is_low (Feeder.type feeder) food = Ok false ->
      eval (FoodLevel.is_on self) data = Ok (JBool false)
      /\ eval (FoodLevel.icon self) data = Ok (JStr "mdi:food-drumstick")).
Proof.
  intros Hdev Hfood.
  rewrite (FoodLevel_is_on_run _ _ Hdev Hfood).
  rewrite (FoodLevel_icon_run _ _ Hdev Hfood).
  split; [| split].
  - intro Ht. unfold food_is_low. now rewrite Ht.
  - intro Ht. unfold food_is_low.
    destruct (String.eqb_spec (Feeder.type feeder) "d3"); congruence.
  - destruct (food_is_low _ food) as [[|]|]; repeat split; congruence.
Qed.


(** C3 as stated fails.  A "d3" feeder whose "food" is [None] gets a
    [FoodLevel]; [food < 2] does not hold, yet [icon] does not return
    "mdi:food-drumstick": it raises [TypeError], and so does [is_on].  A
    "d4" feeder whose state has no "food" entry gets a [FoodLevel] too, and
    there both raise [KeyError]. *)
Lemma FoodLevel_raises_when_food_does_not_fit :
  In (Entity FoodLevel 22) (registered untyped_fields_data)
  /\ getitem2 (Feeder.data (sample_feeder 22 "d3" JNull)) "state" "food"
     = Ok JNull
  /\ py_lt_int JNull 2 <> Ok true
  /\ eval (FoodLevel.is_on 22) untyped_fields_data = Raise TypeError
  /\ eval (FoodLevel.icon 22) untyped_fields_data = Raise TypeError
  /\ eval (FoodLevel.icon 22) untyped_fields_data
     <> Ok (JStr "mdi:food-drumstick")
  /\ In (Entity FoodLevel 26) (registered foodless_feeder_data)
  /\ eval (FoodLevel.is_on 26) foodless_feeder_data = Raise KeyError
  /\ eval (FoodLevel.icon 26) foodless_feeder_data = Raise KeyError
  /\ eval (FoodLevel.icon 26) foodless_feeder_data
     <> Ok (JStr "mdi:food-drumstick").
Proof.
  repeat split; try reflexivity; try (vm_compute; tauto);
    vm_compute; discriminate.
Qed.

(** C3, amended.  For every feeder whose blob holds
    [data["state"]["food"]], the value being a number when the feeder is a
    "d3": [FoodLevel.is_on] returns [True] iff [food < 2] on a "d3" and iff
    [food == 0] on any other type, and [False] otherwise; [FoodLevel.icon]
    returns "mdi:food-drumstick-off" in exactly those cases and
    "mdi:food-drumstick" otherwise.  Neither raises, neither returns
    [None]. *)
Theorem FoodLevel_is_on_icon (data : PetKitData) (self : Z)
    (feeder : Feeder.t) (food : json) :
  devices_get (feeders data) self = Some feeder ->
  getitem2 (Feeder.data feeder) "state" "food" = Ok food ->
  (Feeder.type feeder = "d3" -> is_number food = true) ->
  exists low : bool,
    (Feeder.type feeder = "d3" -> py_lt_int food 2 = Ok low)
    /\ (Feeder.type feeder <> "d3" -> py_eq_int food 0 = low)
    /\ (forall n : Z, food = JInt n ->
        low = if String.eqb (Feeder.type feeder) "d3"
              then Z.ltb n 2 else Z.eqb n 0)
    /\ eval (FoodLevel.is_on self) data = Ok (JBool low)
    /\ eval (FoodLevel.icon self) data
       = Ok (JStr (if low then "mdi:food-drumstick-off"
                   else "mdi:food-drumstick"))
    /\ (eval (FoodLevel.is_on self) data = Ok (JBool true) <-> low = true)
    /\ (eval (FoodLevel.icon self) data = Ok (JStr "mdi:food-drumstick-off")
        <-> low = true)
    /\ (low = false ->
        eval (FoodLevel.is_on self) data = Ok (JBool false)
        /\ eval (FoodLevel.icon self) data
           = Ok (JStr "mdi:food-drumstick")).
Proof.
  intros Hdev Hfood Hnum.
  rewrite (FoodLevel_is_on_run _ _ Hdev Hfood).
  rewrite (FoodLevel_icon_run _ _ Hdev Hfood).
  unfold food_is_low.
  destruct (String.eqb_spec (Feeder.type feeder) "d3") as [Ht | Ht].
  - specialize (Hnum Ht). unfold is_number in Hnum. unfold py_lt_int.
    destruct (as_number food) as [[z | f] |] eqn:Hn; [| | discriminate Hnum].
    + exists (Z.ltb z 2).
      split; [intros _; reflexivity |].
      split; [intro H; contradiction |].
      split; [intros n ->; cbn in Hn; now injection Hn as -> |].
      destruct (Z.ltb z 2); repeat split; congruence.
    + exists (float_lt_int f 2).
      split; [intros _; reflexivity |].
      split; [intro H; contradiction |].
      split; [intros n ->; cbn in Hn; discriminate Hn |].
      destruct (float_lt_int f 2); repeat split; congruence.
  - exists (py_eq_int food 0).
    split; [intro H; contradiction |].
    split; [intros _; reflexivity |].
    split; [intros n ->; reflexivity |].
    destruct (py_eq_int food 0); repeat split; congruence.
Qed.

Lemma FoodLevel_is_on_icon_witness :
  devices_get (feeders sample_data) 22 = Some (sample_feeder 22 "d3" (JInt 1))
  /\ getitem2 (Feeder.data (sample_feeder 22 "d3" (JInt 1))) "state" "food"
     = Ok (JInt 1)
  /\ is_number (JInt 1) = true
  /\ exists low : bool,
       eval (FoodLevel.is_on 22) sample_data = Ok (JBool low)
       /\ eval (FoodLevel.icon 22) sample_data
          = Ok (JStr (if low then "mdi:food-drumstick-off"
                      else "mdi:food-drumstick")).
Proof.
  split; [reflexivity | split; [reflexivity | split; [reflexivity |]]].
  destruct (@FoodLevel_is_on_icon sample_data 22
              (sample_feeder 22 "d3" (JInt 1)) (JInt 1)
              eq_refl eq_refl (fun _ => eq_refl))
    as [low [_ [_ [_ [Hon [Hicon _]]]]]].
  exists low. split; assumption.
Defined.

(** ** [LBDeodorizerLack] *)

(** C6.  For a litter box carrying an [LBDeodorizerLack] entity, the
    presence of the "k3Device" key in [device_detail] selects the
    presentation: "pura_air_liquid" with "mdi:cup" when the key is there,
    "deodorizer" with "mdi:spray" when it is not. *)
Theorem LBDeodorizerLack_presentation (data : PetKitData) (self : Z)
    (lb : LitterBox.t) :
  devices_get (litter_boxes data) self = Some lb ->
  (dict_contains "k3Device" (LitterBox.device_detail lb) = true ->
   eval (LBDeodorizerLack.translation_key self) data = Ok "pura_air_liquid"
   /\ eval (LBDeodorizerLack.icon self) data = Ok (JStr "mdi:cup"))
  /\ (dict_contains "k3Device" (LitterBox.device_detail lb) = false ->
      eval (LBDeodorizerLack.translation_key self) data = Ok "deodorizer"
      /\ eval (LBDeodorizerLack.icon self) data = Ok (JStr "mdi:spray")).
Proof.
  intro Hdev.
  unfold eval, LBDeodorizerLack.translation_key, LBDeodorizerLack.icon,
    LBDeodorizerLack.lb_data.
  unfold bind. rewrite (litter_box_of_ok _ _ Hdev).
  split; intro Hk; rewrite Hk; split; reflexivity.
Qed.

Lemma LBDeodorizerLack_presentation_witness :
  devices_get (litter_boxes sample_data) 31 = Some sample_litter_box
  /\ eval (LBDeodorizerLack.translation_key 31) sample_data = Ok "deodorizer"
  /\ eval (LBDeodorizerLack.icon 31) sample_data = Ok (JStr "mdi:spray").
Proof.
  split; [reflexivity |].
  apply (@LBDeodorizerLack_presentation sample_data 31 sample_litter_box);
    reflexivity.
Defined.

(** C7.  [LBDeodorizerLack.available] returns [False] exactly when the
    litter box is a "t4" without the "k3Device" key, and [True] in every
    other case; in particular it returns [True] on every "t3". *)
Theorem LBDeodorizerLack_available (data : PetKitData) (self : Z)
    (lb : LitterBox.t) :
  devices_get (litter_boxes data) self = Some lb ->
  (eval (LBDeodorizerLack.available self) data = Ok false
   <-> LitterBox.type lb = "t4"
       /\ dict_contains "k3Device" (LitterBox.device_detail lb) = false)
  /\ (eval (LBDeodorizerLack.available self) data = Ok true
      <-> ~ (LitterBox.type lb = "t4"
             /\ dict_contains "k3Device" (LitterBox.device_detail lb)
                = false))
  /\ (LitterBox.type lb = "t3" ->
      eval (LBDeodorizerLack.available self) data = Ok true).
Proof.
  intro Hdev.
  unfold eval, LBDeodorizerLack.available, LBDeodorizerLack.lb_data.
  unfold bind. rewrite (litter_box_of_ok _ _ Hdev).
  destruct (String.eqb_spec (LitterBox.type lb) "t4") as [Ht | Ht];
    [destruct (dict_contains "k3Device" (LitterBox.device_detail lb)) |];
    simpl; repeat split; try congruence; try tauto;
    try (intros [? ?]; congruence); try (intros ? [? ?]; congruence).
Qed.

Lemma LBDeodorizerLack_available_witness :
  devices_get (litter_boxes sample_data) 31 = Some sample_litter_box
  /\ eval (LBDeodorizerLack.available 31) sample_data = Ok true.
Proof.
  split; [reflexivity |].
  apply (@LBDeodorizerLack_available sample_data 31 sample_litter_box);
    reflexivity.
Defined.

(** ** [LBBWastePresence] *)

(** C8.  For a litter box whose state holds "boxState",
    [LBBWastePresence.is_on] returns [True] exactly when the value is not
    equal to 1, and the icon is "mdi:inbox-remove" exactly when [is_on]
    returns [True], "mdi:inbox" otherwise. *)
Theorem LBBWastePresence_is_on_icon (data : PetKitData) (self : Z)
    (lb : LitterBox.t) (state : dict) :
  devices_get (litter_boxes data) self = Some lb ->
  dict_get (LitterBox.device_detail lb) "state" = Some (JDict state) ->
  dict_contains "boxState" state = true ->
  exists boxState : json,
    dict_get state "boxState" = Some boxState
    /\ (eval (LBBWastePresence.is_on self) data = Ok (JBool true)
        <-> py_eq_int boxState 1 = false)
    /\ (eval (LBBWastePresence.is_on self) data = Ok (JBool false)
        <-> py_eq_int boxState 1 = true)
    /\ (eval (LBBWastePresence.icon self) data = Ok (JStr "mdi:inbox-remove")
        <-> eval (LBBWastePresence.is_on self) data = Ok (JBool true))
    /\ (eval (LBBWastePresence.is_on self) data <> Ok (JBool true) ->
        eval (LBBWastePresence.icon self) data = Ok (JStr "mdi:inbox")).
Proof.
  intros Hdev Hstate Hkey.
  unfold dict_contains in Hkey.
  destruct (dict_get state "boxState") as [boxState |] eqn:Hbox;
    [| discriminate].
  exists boxState. split; [reflexivity |].
  unfold eval, LBBWastePresence.is_on, LBBWastePresence.icon,
    LBBWastePresence.lb_data.
  unfold bind. rewrite (litter_box_of_ok _ _ Hdev).
  unfold lift, ret, getitem2, getitem. rewrite Hstate. simpl.
  unfold getitem. rewrite Hbox.
  destruct (py_eq_int boxState 1); simpl; repeat split; congruence.
Qed.

Lemma LBBWastePresence_is_on_icon_witness :
  devices_get (litter_boxes sample_data) 31 = Some sample_litter_box
  /\ exists boxState : json,
       dict_get
         [("boxFull", JBool false); ("sandLack", JBool true);
          ("liquidLack", JBool false); ("boxState", JInt 1)] "boxState"
       = Some boxState
       /\ (eval (LBBWastePresence.is_on 31) sample_data = Ok (JBool true)
           <-> py_eq_int boxState 1 = false).
Proof.
  split; [reflexivity |].
  destruct (@LBBWastePresence_is_on_icon sample_data 31 sample_litter_box
              [("boxFull", JBool false); ("sandLack", JBool true);
               ("liquidLack", JBool false); ("boxState", JInt 1)]
              eq_refl eq_refl eq_refl) as [boxState [Hget [Hon _]]].
  exists boxState. split; assumption.
Defined.

(** ** The hoppers *)

(** On an integer level the icon of a hopper follows its [is_on] exactly
    when the level is not negative. *)
Lemma FoodLevelHopper1_agreement (data : PetKitData) (self : Z)
    (feeder : Feeder.t) (n : Z) :
  devices_get (feeders data) self = Some feeder ->
  getitem2 (Feeder.data feeder) "state" "food1" = Ok (JInt n) ->
  (eval (FoodLevelHopper1.icon self) data = Ok (JStr "mdi:food-drumstick-off")
   <-> eval (FoodLevelHopper1.is_on self) data = Ok (JBool true))
  <-> 0 <= n.
Proof.
  intros Hdev Hfood.
  unfold eval, FoodLevelHopper1.icon, FoodLevelHopper1.is_on,
    FoodLevelHopper1.feeder_data.
  unfold bind. rewrite (feeder_of_ok _ _ Hdev).
  unfold lift, ret. rewrite Hfood. unfold py_lt_int, py_eq_int. simpl.
  destruct (Z.eqb_spec n 0), (Z.ltb_spec n 1); simpl; split.
  all: first [ lia
             | intros _; split; intro; (reflexivity || discriminate)
             | intros [H1 H2]; first [ now discriminate H1
                                     | now discriminate H2
                                     | now discriminate (H1 eq_refl)
                                     | now discriminate (H2 eq_refl) ] ].
Qed.

Lemma FoodLevelHopper2_agreement (data : PetKitData) (self : Z)
    (feeder : Feeder.t) (n : Z) :
  devices_get (feeders data) self = Some feeder ->
  getitem2 (Feeder.data feeder) "state" "food2" = Ok (JInt n) ->
  (eval (FoodLevelHopper2.icon self) data = Ok (JStr "mdi:food-drumstick-off")
   <-> eval (FoodLevelHopper2.is_on self) data = Ok (JBool true))
  <-> 0 <= n.
Proof.
  intros Hdev Hfood.
  unfold eval, FoodLevelHopper2.icon, FoodLevelHopper2.is_on,
    FoodLevelHopper2.feeder_data.
  unfold bind. rewrite (feeder_of_ok _ _ Hdev).
  unfold lift, ret. rewrite Hfood. unfold py_lt_int, py_eq_int. simpl.
  destruct (Z.eqb_spec n 0), (Z.ltb_spec n 1); simpl; split.
  all: first [ lia
             | intros _; split; intro; (reflexivity || discriminate)
             | intros [H1 H2]; first [ now discriminate H1
                                     | now discriminate H2
                                     | now discriminate (H1 eq_refl)
                                     | now discriminate (H2 eq_refl) ] ].
Qed.

(** C9 does not hold of the source: on a "d4s" feeder that reports -1 for
    "food1" and "food2", both hopper entities exist, [is_on] returns [True]
    (the test is [< 1]) and [icon] returns "mdi:food-drumstick" (the test
    is [== 0]), so the icon does not follow [is_on]. *)
Theorem hopper_icon_departs_from_is_on :
  In (Entity FoodLevelHopper1 24) (registered negative_hopper_data)
  /\ In (Entity FoodLevelHopper2 24) (registered negative_hopper_data)
  /\ eval (FoodLevelHopper1.is_on 24) negative_hopper_data = Ok (JBool true)
  /\ eval (FoodLevelHopper1.icon 24) negative_hopper_data
     = Ok (JStr "mdi:food-drumstick")
  /\ eval (FoodLevelHopper2.is_on 24) negative_hopper_data = Ok (JBool true)
  /\ eval (FoodLevelHopper2.icon 24) negative_hopper_data
     = Ok (JStr "mdi:food-drumstick").
Proof.
  repeat split; try reflexivity; vm_compute; tauto.
Qed.

(** ** Purity of the properties *)

Lemma properties_read_only (h : Host) (e : entity) (p : property)
    (m : M pyvalue) :
  class_property h e p = Some m -> read_only m.
Proof.
  destruct e as [c k].
  destruct c, p; cbn [class_property device_class entity_category available
                      option_map cls dev_id];
    intro H; first [discriminate H | injection H as <-];
    read_only_walk.
Qed.

Lemma stable_ret (R : PetKitData -> PetKitData -> Prop) (A : Type) (a : A) :
  stable R (ret a).
Proof. intros s1 s2 _. reflexivity. Qed.

Lemma stable_lift (R : PetKitData -> PetKitData -> Prop) (A : Type)
    (r : result A) :
  stable R (lift r).
Proof. intros s1 s2 _. reflexivity. Qed.

Lemma stable_bind (R : PetKitData -> PetKitData -> Prop) (A B : Type)
    (m : M A) (k : A -> M B) :
  read_only m -> stable R m -> (forall a, stable R (k a)) ->
  stable R (bind m k).
Proof.
  intros Hro Hm Hk s1 s2 HR. unfold eval, bind.
  rewrite (eval_read_only s1 Hro), (eval_read_only s2 Hro).
  rewrite (Hm s1 s2 HR).
  destruct (eval m s2) as [a | e]; [| reflexivity].
  apply (Hk a s1 s2 HR).
Qed.

Lemma stable_fountain_of (e : entity) :
  kind_of (cls e) = KFountain ->
  stable (same_device e) (fountain_of (dev_id e)).
Proof.
  intros Hk s1 s2 HR. unfold same_device in HR. rewrite Hk in HR.
  unfold eval, fountain_of, bind, coordinator_data, device.
  rewrite HR. now destruct (devices_get (water_fountains s2) (dev_id e)).
Qed.

Lemma stable_feeder_of (e : entity) :
  kind_of (cls e) = KFeeder ->
  stable (same_device e) (feeder_of (dev_id e)).
Proof.
  intros Hk s1 s2 HR. unfold same_device in HR. rewrite Hk in HR.
  unfold eval, feeder_of, bind, coordinator_data, device.
  rewrite HR. now destruct (devices_get (feeders s2) (dev_id e)).
Qed.

Lemma stable_litter_box_of (e : entity) :
  kind_of (cls e) = KLitterBox ->
  stable (same_device e) (litter_box_of (dev_id e)).
Proof.
  intros Hk s1 s2 HR. unfold same_device in HR. rewrite Hk in HR.
  unfold eval, litter_box_of, bind, coordinator_data, device.
  rewrite HR. now destruct (devices_get (litter_boxes s2) (dev_id e)).
Qed.

(** Walks through a getter of entity [e], down to the lookup of its
    device. *)
Ltac stable_walk e :=
  cbv beta zeta; cbn [cls dev_id];
  lazymatch goal with
  | |- stable _ (bind _ _) =>
      apply stable_bind; [read_only_walk | stable_walk e | intro; stable_walk e]
  | |- stable _ (ret _) => apply stable_ret
  | |- stable _ (lift _) => apply stable_lift
  | |- stable _ (fountain_of _) => apply (stable_fountain_of e); reflexivity
  | |- stable _ (feeder_of _) => apply (stable_feeder_of e); reflexivity
  | |- stable _ (litter_box_of _) =>
      apply (stable_litter_box_of e); reflexivity
  | |- stable _ (if ?b then _ else _) => destruct b; stable_walk e
  | |- stable _ ?m => let h := head_of m in unfold h; stable_walk e
  end.

(** A property of an entity looks at nothing but the entity's own device. *)
Lemma properties_stable (h : Host) (e : entity) (p : property)
    (m : M pyvalue) :
  class_property h e p = Some m -> stable (same_device e) m.
Proof.
  destruct e as [c k].
  destruct c, p; cbn [class_property device_class entity_category available
                      option_map cls dev_id];
    intro H; first [discriminate H | injection H as <-];
    match goal with |- stable (same_device ?e) _ => stable_walk e end.
Qed.

Lemma class_property_defined (h : Host) (e : entity) (p : property) :
  class_property h e p = None <-> defined_by_class (cls e) p = false.
Proof.
  destruct e as [c k].
  destruct c, p; cbn; split; intro H;
    first [reflexivity | discriminate H].
Qed.

Lemma same_device_refl (e : entity) (data : PetKitData) :
  same_device e data data.
Proof. unfold same_device. now destruct (kind_of (cls e)). Qed.

(** C5 as stated fails for the attributes a class does not define: the
    two classes the claim cites, [WFWater] and [FoodLevel], are
    instantiated and have no [available] in their body, and
    [BatteryInstalled] has no [device_class]; for these the source holds no
    function of the coordinator's data at all, the host's base classes
    answer. *)
Lemma cited_classes_define_no_available :
  In (Entity WFWater 11) (registered sample_data)
  /\ class_property sample_host (Entity WFWater 11) P_available = None
  /\ In (Entity FoodLevel 22) (registered sample_data)
  /\ class_property sample_host (Entity FoodLevel 22) P_available = None
  /\ In (Entity BatteryInstalled 21) (registered sample_data)
  /\ class_property sample_host (Entity BatteryInstalled 21) P_device_class
     = None.
Proof.
  repeat split; try reflexivity; vm_compute; tauto.
Qed.

(** C5, amended.  A class defines [is_on], [icon], [device_info],
    [unique_id] and [translation_key] in all seventeen cases,
    [device_class] in all but four, [available] in [LBDeodorizerLack]
    only.  Every attribute a class defines is a pure function of the
    coordinator's data: evaluating it leaves the data as it was; a second
    evaluation right after the first, or after the evaluation of any other
    attribute of any entity, returns the same result; and the result is the
    same over any two data that hold the same record for the entity's
    device, equal data in particular. *)
Theorem properties_are_pure (h : Host) (e : entity) (p : property) :
  (class_property h e p = None <-> defined_by_class (cls e) p = false)
  /\ (forall m : M pyvalue,
        class_property h e p = Some m ->
        forall data : PetKitData,
          snd (m data) = data
          /\ eval m (snd (m data)) = eval m data
          /\ (forall (e' : entity) (p' : property) (m' : M pyvalue),
                class_property h e' p' = Some m' ->
                snd (m' data) = data
                /\ eval m (snd (m' data)) = eval m data)
          /\ (forall data' : PetKitData,
                same_device e data' data -> eval m data' = eval m data)
          /\ same_device e data data).
Proof.
  split; [apply class_property_defined |].
  intros m H data.
  pose proof (properties_read_only h e p H data) as Hro.
  split; [exact Hro | split; [| split; [| split]]].
  - now rewrite Hro.
  - intros e' p' m' H'.
    pose proof (properties_read_only h e' p' H' data) as Hro'.
    split; [exact Hro' | now rewrite Hro'].
  - intros data' Hsame. exact (properties_stable h e p H data' data Hsame).
  - apply same_device_refl.
Qed.

Lemma properties_are_pure_witness :
  class_property sample_host (Entity WFWater 11) P_device_info
  = Some (fmap VDeviceInfo (device_info sample_host (Entity WFWater 11)))
  /\ snd (fmap VDeviceInfo (device_info sample_host (Entity WFWater 11))
            sample_data)
     = sample_data
  /\ eval (fmap VDeviceInfo (device_info sample_host (Entity WFWater 11)))
       stateless_box_data
     = eval (fmap VDeviceInfo (device_info sample_host (Entity WFWater 11)))
         sample_data.
Proof.
  split; [reflexivity |].
  pose proof (proj2 (@properties_are_pure sample_host (Entity WFWater 11)
                       P_device_info)
                (fmap VDeviceInfo (device_info sample_host (Entity WFWater 11)))
                eq_refl) as W.
  split.
  - exact (proj1 (W sample_data)).
  - exact (proj1 (proj2 (proj2 (proj2 (W sample_data))))
             stateless_box_data eq_refl).
Defined.

(** ** Device classes *)

Lemma every_class_is_instantiated (c : entity_class) :
  In c (map cls (registered sample_data)).
Proof. destruct c; vm_compute; tauto. Qed.

(** C4 as stated fails: the setup instantiates [BatteryInstalled] for a
    "d4" feeder, and the class defines no [device_class]. *)
Lemma BatteryInstalled_without_device_class :
  In (Entity BatteryInstalled 23) (registered d4_feeder_data)
  /\ device_class (Entity BatteryInstalled 23) = None.
Proof. split; [vm_compute; tauto | reflexivity]. Qed.

(** C4, amended.  Every class other than [BatteryInstalled],
    [LBManuallyPaused], [CameraStatus] and [CarePlusSubscription] defines a
    [device_class] that evaluates to a value on any data; these four define
    none and set [entity_category] to [DIAGNOSTIC] instead.  All seventeen
    classes are instantiated by the setup on suitable data. *)
Theorem device_class_defined_except_diagnostics (e : entity)
    (data : PetKitData) :
  (In (cls e) classes_without_device_class <-> device_class e = None)
  /\ (device_class e = None ->
      exists m, entity_category e = Some m /\ eval m data = Ok DIAGNOSTIC)
  /\ (~ In (cls e) classes_without_device_class ->
      exists m c, device_class e = Some m /\ eval m data = Ok c)
  /\ In (cls e) (map cls (registered sample_data)).
Proof.
  destruct e as [c k].
  split; [| split; [| split]].
  - destruct c; cbn; split; intro H;
      first [reflexivity | discriminate H | tauto | idtac].
    all: repeat (destruct H as [H | H]; [discriminate H |]); destruct H.
  - destruct c; cbn; intro H; first [discriminate H | idtac];
      eexists; split; reflexivity.
  - destruct c; cbn; intro H;
      first [exfalso; apply H; tauto
            | do 2 eexists; split; reflexivity].
  - apply every_class_is_instantiated.
Qed.

(** ** [is_on] and booleans *)

Lemma getitem2_path (d : dict) (k1 k2 : string) :
  getitem2 d k1 k2 = subscript_path (JDict d) [k1; k2].
Proof.
  unfold getitem2, subscript_path, subscript.
  destruct (getitem d k1) as [v |]; [| reflexivity].
  destruct v; try reflexivity.
  now destruct (getitem d0 k2).
Qed.

Lemma getitem_path (d : dict) (k : string) :
  getitem d k = subscript_path (JDict d) [k].
Proof.
  unfold subscript_path, subscript. now destruct (getitem d k).
Qed.

(** Opens the device lookup an [is_on] starts with. *)
Ltac open_device k data :=
  unfold bind;
  lazymatch goal with
  | |- context [fountain_of k data] =>
      let H := fresh "Hdev" in
      destruct (devices_get (water_fountains data) k) as [?wf |] eqn:H;
      [rewrite (fountain_of_ok _ _ H) | rewrite (fountain_of_missing _ _ H)]
  | |- context [feeder_of k data] =>
      let H := fresh "Hdev" in
      destruct (devices_get (feeders data) k) as [?feeder |] eqn:H;
      [rewrite (feeder_of_ok _ _ H) | rewrite (feeder_of_missing _ _ H)]
  | |- context [litter_box_of k data] =>
      let H := fresh "Hdev" in
      destruct (devices_get (litter_boxes data) k) as [?lb |] eqn:H;
      [rewrite (litter_box_of_ok _ _ H) | rewrite (litter_box_of_missing _ _ H)]
  end.

(** Case analysis on everything an [is_on] inspects. *)
Ltac split_reads :=
  repeat match goal with
    | |- context [String.eqb ?t "d3"] =>
        destruct (String.eqb t "d3"); cbn [negb]
    | |- context [subscript_path ?b ?p] =>
        destruct (subscript_path b p) as [?v | ?err]
    | |- context [as_number ?v] =>
        destruct (as_number v) as [[?z | ?f] |]
    | |- context [is_boolean ?v] => destruct v; cbn [is_boolean]
    | |- context [if ?b then _ else _] => destruct b
    end.

Ltac settle_boolean :=
  let Hb := fresh "Hb" in
  let H := fresh "H" in
  cbn [fst];
  split;
  [ intros [? Hb]; first [discriminate Hb | reflexivity]
  | intro H; first [discriminate H | eexists; reflexivity] ].

(** C2 as stated fails.  On a "t3" litter box that reports "boxFull" as
    the integer 1, [LBBinFull] is instantiated, the field it reads is
    present, and [is_on] returns that integer, not a boolean; on a "d3"
    feeder whose "food" is [None], [FoodLevel] is instantiated, the field
    is present, and [is_on] raises [TypeError]. *)
Lemma is_on_not_boolean_on_present_fields :
  In (Entity LBBinFull 33) (registered untyped_fields_data)
  /\ is_on_field_present untyped_fields_data (Entity LBBinFull 33) = true
  /\ eval (is_on (Entity LBBinFull 33)) untyped_fields_data = Ok (JInt 1)
  /\ ~ returns_boolean untyped_fields_data (Entity LBBinFull 33)
  /\ In (Entity FoodLevel 22) (registered untyped_fields_data)
  /\ is_on_field_present untyped_fields_data (Entity FoodLevel 22) = true
  /\ eval (is_on (Entity FoodLevel 22)) untyped_fields_data = Raise TypeError
  /\ ~ returns_boolean untyped_fields_data (Entity FoodLevel 22).
Proof.
  repeat split.
  - vm_compute; tauto.
  - intros [b Hb]. vm_compute in Hb. discriminate Hb.
  - vm_compute; tauto.
  - intros [b Hb]. vm_compute in Hb. discriminate Hb.
Qed.

(** C2, amended.  [is_on] returns a boolean exactly when the entity's
    device is in the coordinator's data, the state field [is_on] reads is
    present, a field it orders with [<] or [>] holds a number, and a field
    it returns unchanged ("boxFull", "sandLack", "liquidLack") holds a
    boolean.  This covers every entity, hence every instantiated one. *)
Theorem is_on_boolean_iff_field_fits (data : PetKitData) (e : entity) :
  returns_boolean data e <-> is_on_field_fits data e = true.
Proof.
  destruct e as [c k].
  unfold returns_boolean, is_on_field_fits, device_blob, eval, is_on.
  destruct c; cbn [cls dev_id kind_of];
    match goal with
    | |- context [fst (?f k data)] => let h := head_of f in unfold h
    end;
    match goal with |- context [bind (?f k)] => unfold f end;
    (open_device k data; cbn [option_map is_on_field];
     [ rewrite ?getitem_path, ?getitem2_path;
       unfold bind, lift, ret, fits, py_lt_int, py_gt_int, is_number | ]);
    split_reads; settle_boolean.
Qed.

(** ** The setup *)

Lemma for_items_collect (D : Type) (items : list (Z * D))
    (body : Z -> D -> list entity -> M (list entity))
    (part : Z -> D -> result (list entity)) (s : PetKitData) :
  (forall k v acc,
      body k v acc s
      = (match part k v with
         | Ok l => Ok (acc ++ l)
         | Raise e => Raise e
         end, s)) ->
  forall acc,
    for_items items body acc s
    = (match collect part items with
       | Ok l => Ok (acc ++ l)
       | Raise e => Raise e
       end, s).
Proof.
  intro Hbody. induction items as [| [k v] rest IH]; intro acc; simpl.
  - unfold ret. now rewrite app_nil_r.
  - unfold bind. rewrite Hbody.
    destruct (part k v) as [l | e]; [| reflexivity].
    rewrite IH. destruct (collect part rest) as [l' | e]; [| reflexivity].
    now rewrite app_assoc.
Qed.

Lemma collect_total (D : Type) (f : Z -> D -> list entity)
    (items : list (Z * D)) :
  collect (fun k v => Ok (f k v)) items
  = Ok (flat_map (fun kv => f (fst kv) (snd kv)) items).
Proof.
  induction items as [| [k v] rest IH]; simpl; [reflexivity |].
  now rewrite IH.
Qed.

Lemma fountain_body_run (wf_id : Z) (wf : Fountain.t) (acc : list entity)
    (s : PetKitData) :
  fountain_body wf_id wf acc s
  = (Ok (acc ++ entities_of wf_id (fountain_gets wf)), s).
Proof.
  unfold fountain_body, entities_of, ret. cbn.
  destruct (String.eqb (Fountain.type wf) "ctw3"); cbn;
    rewrite <- ?app_assoc; reflexivity.
Qed.

Lemma feeder_body_run (feeder_id : Z) (feeder : Feeder.t)
    (acc : list entity) (s : PetKitData) :
  feeder_body feeder_id feeder acc s
  = (Ok (acc ++ entities_of feeder_id (feeder_gets feeder)), s).
Proof.
  unfold feeder_body, entities_of, ret. cbn.
  destruct (String.eqb (Feeder.type feeder) "d4s"),
    (String.eqb (Feeder.type feeder) "d4sh"),
    (String.eqb (Feeder.type feeder) "d4"),
    (String.eqb (Feeder.type feeder) "d3"); cbn;
    rewrite <- ?app_assoc, ?app_nil_r; reflexivity.
Qed.

Lemma litter_box_body_run (lb_id : Z) (lb : LitterBox.t) (acc : list entity)
    (s : PetKitData) :
  litter_box_body lb_id lb acc s
  = (match litter_box_part lb_id lb with
     | Ok l => Ok (acc ++ l)
     | Raise e => Raise e
     end, s).
Proof.
  unfold litter_box_body, litter_box_part, entities_of, bind, lift, ret.
  destruct (getitem (LitterBox.device_detail lb) "state") as [state | e];
    [| reflexivity].
  destruct (contains "boxState" state) as [has | e]; [| reflexivity].
  cbn.
  destruct (String.eqb (LitterBox.type lb) "t3"),
    (String.eqb (LitterBox.type lb) "t4"),
    (String.eqb (LitterBox.type lb) "t6"),
    (dict_contains "k3Device" (LitterBox.device_detail lb)), has; cbn;
    rewrite <- ?app_assoc, ?app_nil_r; reflexivity.
Qed.

(** The setup in one equation: the fountains' and the feeders' parts never
    raise, the litter boxes' parts may. *)
Lemma async_setup_entry_run (data : PetKitData) :
  async_setup_entry data
  = (match collect litter_box_part (litter_boxes data) with
     | Ok l =>
         Ok (flat_map (fun kv => entities_of (fst kv) (fountain_gets (snd kv)))
               (water_fountains data)
             ++ flat_map
                  (fun kv => entities_of (fst kv) (feeder_gets (snd kv)))
                  (feeders data)
             ++ l)
     | Raise e => Raise e
     end, data).
Proof.
  unfold async_setup_entry, bind, ret, coordinator_data.
  rewrite (for_items_collect (water_fountains data) fountain_body
             (fun k v => Ok (entities_of k (fountain_gets v))))
    by (intros; apply fountain_body_run).
  rewrite collect_total.
  rewrite (for_items_collect (feeders data) feeder_body
             (fun k v => Ok (entities_of k (feeder_gets v))))
    by (intros; apply feeder_body_run).
  rewrite collect_total.
  rewrite (for_items_collect (litter_boxes data) litter_box_body
             litter_box_part)
    by (intros; apply litter_box_body_run).
  destruct (collect litter_box_part (litter_boxes data)); [| reflexivity].
  now rewrite <- app_assoc.
Qed.

Lemma litter_box_part_with_state (lb_id : Z) (lb : LitterBox.t) :
  has_state_dict lb ->
  litter_box_part lb_id lb
  = Ok (entities_of lb_id (litter_box_gets lb (box_state_is_key lb))).
Proof.
  intros [state Hstate].
  unfold litter_box_part, box_state_is_key, getitem.
  now rewrite Hstate.
Qed.

Lemma collect_litter_boxes (items : list (Z * LitterBox.t)) :
  (forall k lb, In (k, lb) items -> has_state_dict lb) ->
  collect litter_box_part items
  = Ok (flat_map
          (fun kv =>
             entities_of (fst kv)
               (litter_box_gets (snd kv) (box_state_is_key (snd kv))))
          items).
Proof.
  induction items as [| [k lb] rest IH]; intro H; simpl; [reflexivity |].
  rewrite litter_box_part_with_state by (apply (H k); now left).
  rewrite IH by (intros k' lb' Hin; apply (H k'); now right).
  reflexivity.
Qed.

Lemma all_classes_complete (c : entity_class) : In c all_classes.
Proof. destruct c; cbn; tauto. Qed.

Lemma all_classes_NoDup : NoDup all_classes.
Proof.
  cbn. repeat (apply NoDup_cons; [cbn; intuition discriminate |]).
  apply NoDup_nil.
Qed.

Lemma entities_of_In (k : Z) (gets : entity_class -> bool) (e : entity) :
  In e (entities_of k gets) <-> dev_id e = k /\ gets (cls e) = true.
Proof.
  unfold entities_of. rewrite in_map_iff. split.
  - intros [c [<- Hc]]. apply filter_In in Hc as [_ Hc]. now split.
  - intros [<- Hg]. exists (cls e). split; [now destruct e |].
    apply filter_In. split; [apply all_classes_complete | exact Hg].
Qed.

Lemma entities_of_NoDup (k : Z) (gets : entity_class -> bool) :
  NoDup (entities_of k gets).
Proof.
  unfold entities_of. apply NoDup_map_NoDup_ForallPairs.
  - intros c1 c2 _ _ H. now injection H.
  - apply NoDup_filter, all_classes_NoDup.
Qed.

Lemma expected_entities_In (data : PetKitData) (c : entity_class) (k : Z) :
  In (Entity c k) (expected_entities data)
  <-> (exists wf, In (k, wf) (water_fountains data)
                  /\ fountain_gets wf c = true)
      \/ (exists feeder, In (k, feeder) (feeders data)
                         /\ feeder_gets feeder c = true)
      \/ (exists lb, In (k, lb) (litter_boxes data)
                     /\ litter_box_gets lb (box_state_is_key lb) c = true).
Proof.
  unfold expected_entities. rewrite !in_app_iff, !in_flat_map.
  split.
  - intros [H | [H | H]]; [left | right; left | right; right];
      destruct H as [[k' d] [Hin He]];
      apply entities_of_In in He; cbn [fst snd cls dev_id] in He;
      destruct He as [Hk Hg]; subst k'; exists d; split; assumption.
  - intros [H | [H | H]]; [left | right; left | right; right];
      destruct H as [d [Hin Hg]]; exists (k, d);
      (split; [exact Hin |]); apply entities_of_In;
      cbn [fst snd cls dev_id]; (split; [reflexivity | exact Hg]).
Qed.

(** C1 as stated fails: next to a litter box whose [device_detail] has no
    "state" entry the setup raises [KeyError] and no entity at all is
    instantiated, although the catalogue prescribes [WFWater] for the
    fountain and [LBBinFull] and [LBLitterLack] for the "t4" litter box. *)
Lemma setup_raises_without_state :
  eval async_setup_entry stateless_box_data = Raise KeyError
  /\ registered stateless_box_data = []
  /\ In (Entity WFWater 11) (expected_entities stateless_box_data)
  /\ In (Entity LBBinFull 32) (expected_entities stateless_box_data)
  /\ eval async_setup_entry stateless_box_data
     <> Ok (expected_entities stateless_box_data).
Proof.
  repeat split; try reflexivity; try (vm_compute; tauto).
  vm_compute. discriminate.
Qed.

(** A "state" entry that is not a container does no better: the
    membership test raises [TypeError]. *)
Lemma setup_raises_on_null_state :
  eval async_setup_entry null_state_data = Raise TypeError
  /\ registered null_state_data = [].
Proof. split; reflexivity. Qed.

(** C1, amended.  Provided every litter box's [device_detail] has a
    "state" entry that is a dict, the setup hands over exactly the entities
    of the catalogue: per fountain [WFWater], plus [WFElectricStatus] and
    [WFPumpStatus] iff it is a "ctw3"; per feeder the classes selected by
    its type; per litter box the classes selected by its type, by the
    "k3Device" key and by the "boxState" key of its state; nothing else. *)
Theorem setup_instantiates_catalogue (data : PetKitData) :
  (forall k lb, In (k, lb) (litter_boxes data) -> has_state_dict lb) ->
  async_setup_entry data = (Ok (expected_entities data), data)
  /\ registered data = expected_entities data
  /\ (forall (c : entity_class) (k : Z),
        In (Entity c k) (registered data)
        <-> (exists wf, In (k, wf) (water_fountains data)
                        /\ fountain_gets wf c = true)
            \/ (exists feeder, In (k, feeder) (feeders data)
                               /\ feeder_gets feeder c = true)
            \/ (exists lb, In (k, lb) (litter_boxes data)
                           /\ litter_box_gets lb (box_state_is_key lb) c
                              = true)).
Proof.
  intro Hstate.
  assert (Hrun : async_setup_entry data = (Ok (expected_entities data), data)).
  { rewrite async_setup_entry_run.
    rewrite (collect_litter_boxes _ Hstate). reflexivity. }
  assert (Hreg : registered data = expected_entities data).
  { unfold registered, eval. now rewrite Hrun. }
  split; [exact Hrun | split; [exact Hreg |]].
  intros c k. rewrite Hreg. apply expected_entities_In.
Qed.

Lemma setup_instantiates_catalogue_witness :
  (forall k lb, In (k, lb) (litter_boxes sample_data) -> has_state_dict lb)
  /\ registered sample_data = expected_entities sample_data.
Proof.
  assert (H : forall k lb,
             In (k, lb) (litter_boxes sample_data) -> has_state_dict lb).
  { intros k lb [Heq | []]. injection Heq as _ <-.
    eexists. reflexivity. }
  split; [exact H |].
  exact (proj1 (proj2 (setup_instantiates_catalogue sample_data H))).
Defined.

(** ** Unique ids *)

Lemma str_inj (a b : Z) : str a = str b -> a = b.
Proof.
  unfold str. intro H.
  apply (f_equal NilEmpty.int_of_string) in H.
  rewrite !NilEmpty.isi in H. injection H as H.
  now apply DecimalZ.to_int_inj.
Qed.

Lemma no_underscore_uint (d : Decimal.uint) :
  no_underscore (NilEmpty.string_of_uint d) = true.
Proof. induction d; simpl; auto. Qed.

Lemma no_underscore_str (n : Z) : no_underscore (str n) = true.
Proof.
  unfold str. destruct (Z.to_int n); simpl; apply no_underscore_uint.
Qed.

Lemma split_at_underscore (x s : string) :
  no_underscore x = true ->
  starts_with_underscore s = true ->
  before_underscore (String.append x s) = x
  /\ from_underscore (String.append x s) = s.
Proof.
  intros Hx Hs. induction x as [| a x IH]; simpl.
  - destruct s as [| c s]; simpl in *; [discriminate Hs |].
    rewrite Hs. split; reflexivity.
  - simpl in Hx. apply andb_true_iff in Hx as [Ha Hx].
    destruct (is_underscore a); [discriminate Ha |].
    destruct (IH Hx) as [IH1 IH2]. rewrite IH1, IH2. split; reflexivity.
Qed.

Lemma suffix_starts_with_underscore (c : entity_class) :
  starts_with_underscore (suffix c) = true.
Proof. destruct c; reflexivity. Qed.

Lemma suffix_inj (c1 c2 : entity_class) : suffix c1 = suffix c2 -> c1 = c2.
Proof.
  destruct c1, c2; intro H; first [reflexivity | discriminate H].
Qed.

Lemma unique_id_text_inj (i1 i2 : Z) (c1 c2 : entity_class) :
  String.append (str i1) (suffix c1) = String.append (str i2) (suffix c2) ->
  i1 = i2 /\ c1 = c2.
Proof.
  intro H.
  destruct (@split_at_underscore (str i1) (suffix c1) (no_underscore_str i1)
              (suffix_starts_with_underscore c1)) as [B1 F1].
  destruct (@split_at_underscore (str i2) (suffix c2) (no_underscore_str i2)
              (suffix_starts_with_underscore c2)) as [B2 F2].
  rewrite H in B1, F1.
  split.
  - apply str_inj. congruence.
  - apply suffix_inj. congruence.
Qed.

Lemma unique_id_run (data : PetKitData) (e : entity) (i : Z) :
  device_id_attr data e = Some i ->
  eval (unique_id e) data = Ok (String.append (str i) (suffix (cls e))).
Proof.
  destruct e as [c k]. unfold device_id_attr, eval, unique_id.
  destruct c; cbn [cls dev_id kind_of suffix];
    match goal with
    | |- context [fst (?f k data)] => let h := head_of f in unfold h
    end;
    match goal with |- context [bind (?f k)] => unfold f end;
    open_device k data; cbn [option_map]; intro H;
    first [discriminate H | injection H as <-; reflexivity].
Qed.

Lemma fountain_gets_kind (wf : Fountain.t) (c : entity_class) :
  fountain_gets wf c = true -> kind_of c = KFountain.
Proof. destruct c; cbn; intro H; first [reflexivity | discriminate H]. Qed.

Lemma feeder_gets_kind (f : Feeder.t) (c : entity_class) :
  feeder_gets f c = true -> kind_of c = KFeeder.
Proof. destruct c; cbn; intro H; first [reflexivity | discriminate H]. Qed.

Lemma litter_box_gets_kind (lb : LitterBox.t) (b : bool) (c : entity_class) :
  litter_box_gets lb b c = true -> kind_of c = KLitterBox.
Proof. destruct c; cbn; intro H; first [reflexivity | discriminate H]. Qed.

(** What a successful [collect] returns is the concatenation of the parts. *)
Lemma collect_flat_map (D : Type) (part : Z -> D -> result (list entity))
    (items : list (Z * D)) (l : list entity) :
  collect part items = Ok l ->
  l = flat_map
        (fun kv =>
           match part (fst kv) (snd kv) with
           | Ok l' => l'
           | Raise _ => []
           end) items.
Proof.
  revert l. induction items as [| [k v] rest IH]; simpl; intros l H.
  - now injection H.
  - destruct (part k v) as [l1 | e]; [| discriminate H].
    destruct (collect part rest) as [l2 | e]; [| discriminate H].
    injection H as <-. now rewrite (IH l2 eq_refl).
Qed.

Lemma litter_box_part_In (k : Z) (lb : LitterBox.t) (e : entity) :
  In e (match litter_box_part k lb with Ok l' => l' | Raise _ => [] end) ->
  dev_id e = k /\ kind_of (cls e) = KLitterBox.
Proof.
  unfold litter_box_part.
  destruct (getitem (LitterBox.device_detail lb) "state") as [state | err];
    [| intros []].
  destruct (contains "boxState" state) as [b | err]; [| intros []].
  intro H. apply entities_of_In in H as [Hk Hg].
  split; [exact Hk | exact (litter_box_gets_kind _ _ _ Hg)].
Qed.

Lemma litter_box_part_NoDup (k : Z) (lb : LitterBox.t) :
  NoDup (match litter_box_part k lb with Ok l' => l' | Raise _ => [] end).
Proof.
  unfold litter_box_part.
  destruct (getitem (LitterBox.device_detail lb) "state") as [state | err];
    [| apply NoDup_nil].
  destruct (contains "boxState" state) as [b | err]; [| apply NoDup_nil].
  apply entities_of_NoDup.
Qed.

Lemma flat_map_NoDup (D : Type) (f : Z * D -> list entity)
    (items : list (Z * D)) :
  NoDup (map fst items) ->
  (forall kv, NoDup (f kv)) ->
  (forall kv e, In e (f kv) -> dev_id e = fst kv) ->
  NoDup (flat_map f items).
Proof.
  intros Hkeys Hnd Hid.
  induction items as [| kv rest IH]; simpl; [apply NoDup_nil |].
  simpl in Hkeys. apply NoDup_cons_iff in Hkeys as [Hfresh Hrest].
  apply NoDup_app; [apply Hnd | apply IH, Hrest |].
  intros e He Hin. apply in_flat_map in Hin as [kv' [Hkv' He']].
  apply Hfresh. apply Hid in He. apply Hid in He'.
  rewrite <- He, He'. now apply in_map.
Qed.

Lemma devices_get_In (D : Type) (m : list (Z * D)) (k : Z) (d : D) :
  In (k, d) m -> exists d', devices_get m k = Some d'.
Proof.
  induction m as [| [k' d'] m IH]; simpl; [intros [] |].
  intros [H | H].
  - injection H as -> ->. rewrite Z.eqb_refl. now exists d.
  - destruct (Z.eqb k' k); [now exists d' | now apply IH].
Qed.

Lemma devices_get_Some (D : Type) (m : list (Z * D)) (k : Z) (d : D) :
  devices_get m k = Some d -> In (k, d) m.
Proof.
  induction m as [| [k' d'] m IH]; simpl; [discriminate |].
  destruct (Z.eqb_spec k' k) as [-> | Hne].
  - intro H. injection H as ->. now left.
  - intro H. right. now apply IH.
Qed.

Lemma same_id_same_key (D : Type) (id : D -> Z) (m : list (Z * D))
    (k1 k2 : Z) (d1 d2 : D) :
  NoDup (map (fun kv => id (snd kv)) m) ->
  devices_get m k1 = Some d1 ->
  devices_get m k2 = Some d2 ->
  id d1 = id d2 ->
  k1 = k2.
Proof.
  intros Hnd H1 H2 Hid.
  apply devices_get_Some in H1, H2.
  induction m as [| [k d] m IH]; simpl in *; [destruct H1 |].
  apply NoDup_cons_iff in Hnd as [Hfresh Hnd].
  destruct H1 as [H1 | H1], H2 as [H2 | H2].
  - congruence.
  - injection H1 as -> ->. exfalso. apply Hfresh.
    rewrite Hid. now apply (in_map (fun kv => id (snd kv)) _ (k2, d2)).
  - injection H2 as -> ->. exfalso. apply Hfresh.
    rewrite <- Hid. now apply (in_map (fun kv => id (snd kv)) _ (k1, d1)).
  - now apply IH.
Qed.

(** Every entity the setup hands over belongs to a device of its kind. *)
Lemma setup_entity_has_device (data : PetKitData) (ents : list entity)
    (e : entity) :
  eval async_setup_entry data = Ok ents ->
  In e ents ->
  exists i, device_id_attr data e = Some i.
Proof.
  unfold eval. rewrite async_setup_entry_run. cbn [fst].
  destruct (collect litter_box_part (litter_boxes data)) as [l |] eqn:Hl;
    [| discriminate].
  intro H. injection H as <-.
  apply collect_flat_map in Hl. subst l.
  unfold device_id_attr.
  rewrite !in_app_iff, !in_flat_map.
  intros [[[k wf] [Hin He]] | [[[k f] [Hin He]] | [[k lb] [Hin He]]]];
    cbn [fst snd] in He.
  - apply entities_of_In in He as [<- Hg].
    rewrite (fountain_gets_kind _ _ Hg).
    destruct (devices_get_In _ _ _ Hin) as [d' ->]. now eexists.
  - apply entities_of_In in He as [<- Hg].
    rewrite (feeder_gets_kind _ _ Hg).
    destruct (devices_get_In _ _ _ Hin) as [d' ->]. now eexists.
  - apply litter_box_part_In in He as [<- Hk]. rewrite Hk.
    destruct (devices_get_In _ _ _ Hin) as [d' ->]. now eexists.
Qed.

(** With distinct keys the setup hands over no entity twice. *)
Lemma setup_NoDup (data : PetKitData) (ents : list entity) :
  eval async_setup_entry data = Ok ents ->
  NoDup (map fst (water_fountains data)) ->
  NoDup (map fst (feeders data)) ->
  NoDup (map fst (litter_boxes data)) ->
  NoDup ents.
Proof.
  unfold eval. rewrite async_setup_entry_run. cbn [fst].
  destruct (collect litter_box_part (litter_boxes data)) as [l |] eqn:Hl;
    [| discriminate].
  intro H. injection H as <-.
  apply collect_flat_map in Hl. subst l.
  intros Hwf Hf Hlb.
  assert (Kwf : forall e,
             In e (flat_map
                     (fun kv => entities_of (fst kv) (fountain_gets (snd kv)))
                     (water_fountains data)) ->
             kind_of (cls e) = KFountain).
  { intros e He. apply in_flat_map in He as [kv [_ He]].
    apply entities_of_In in He as [_ Hg]. exact (fountain_gets_kind _ _ Hg). }
  assert (Kf : forall e,
             In e (flat_map
                     (fun kv => entities_of (fst kv) (feeder_gets (snd kv)))
                     (feeders data)) ->
             kind_of (cls e) = KFeeder).
  { intros e He. apply in_flat_map in He as [kv [_ He]].
    apply entities_of_In in He as [_ Hg]. exact (feeder_gets_kind _ _ Hg). }
  assert (Klb : forall e,
             In e (flat_map
                     (fun kv =>
                        match litter_box_part (fst kv) (snd kv) with
                        | Ok l' => l'
                        | Raise _ => []
                        end) (litter_boxes data)) ->
             kind_of (cls e) = KLitterBox).
  { intros e He. apply in_flat_map in He as [kv [_ He]].
    now apply litter_box_part_In in He as [_ Hk]. }
  apply NoDup_app; [| apply NoDup_app |].
  - apply flat_map_NoDup; [exact Hwf | intro; apply entities_of_NoDup |].
    intros kv e He. now apply entities_of_In in He as [Hk _].
  - apply flat_map_NoDup; [exact Hf | intro; apply entities_of_NoDup |].
    intros kv e He. now apply entities_of_In in He as [Hk _].
  - apply flat_map_NoDup;
      [exact Hlb | intro; apply litter_box_part_NoDup |].
    intros kv e He. now apply litter_box_part_In in He as [Hk _].
  - intros e H1 H2. apply Kf in H1. apply Klb in H2. congruence.
  - intros e H1 H2. apply Kwf in H1.
    apply in_app_iff in H2 as [H2 | H2];
      [apply Kf in H2 | apply Klb in H2]; congruence.
Qed.

(** Two entities of the same data whose devices report the same [id] and
    whose classes coincide are the same entity. *)
Lemma same_id_same_entity (data : PetKitData) (e1 e2 : entity) (i : Z) :
  NoDup (map (fun kv => Fountain.id (snd kv)) (water_fountains data)) ->
  NoDup (map (fun kv => Feeder.id (snd kv)) (feeders data)) ->
  NoDup (map (fun kv => LitterBox.id (snd kv)) (litter_boxes data)) ->
  device_id_attr data e1 = Some i ->
  device_id_attr data e2 = Some i ->
  cls e1 = cls e2 ->
  e1 = e2.
Proof.
  intros Hwf Hf Hlb H1 H2 Hc.
  destruct e1 as [c1 k1], e2 as [c2 k2]. cbn [cls] in Hc. subst c2.
  f_equal. unfold device_id_attr in H1, H2. cbn [cls dev_id] in H1, H2.
  destruct (kind_of c1).
  - destruct (devices_get (water_fountains data) k1) as [d1 |] eqn:E1;
      [| discriminate H1].
    destruct (devices_get (water_fountains data) k2) as [d2 |] eqn:E2;
      [| discriminate H2].
    cbn in H1, H2.
    apply (same_id_same_key Fountain.id _ _ _ Hwf E1 E2). congruence.
  - destruct (devices_get (feeders data) k1) as [d1 |] eqn:E1;
      [| discriminate H1].
    destruct (devices_get (feeders data) k2) as [d2 |] eqn:E2;
      [| discriminate H2].
    cbn in H1, H2.
    apply (same_id_same_key Feeder.id _ _ _ Hf E1 E2). congruence.
  - destruct (devices_get (litter_boxes data) k1) as [d1 |] eqn:E1;
      [| discriminate H1].
    destruct (devices_get (litter_boxes data) k2) as [d2 |] eqn:E2;
      [| discriminate H2].
    cbn in H1, H2.
    apply (same_id_same_key LitterBox.id _ _ _ Hlb E1 E2). congruence.
Qed.

(** C10 as stated counts fifteen entity classes.  On the sample data the
    setup instantiates seventeen classes, no two alike and no two with the
    same suffix. *)
Lemma seventeen_entity_classes :
  length (map cls (registered sample_data)) = 17%nat
  /\ NoDup (map cls (registered sample_data))
  /\ NoDup (map suffix (map cls (registered sample_data)))
  /\ length (map cls (registered sample_data)) <> 15%nat.
Proof.
  split; [reflexivity | split; [| split]].
  - vm_compute.
    repeat (apply NoDup_cons; [cbn; intuition discriminate |]).
    apply NoDup_nil.
  - apply NoDup_map_NoDup_ForallPairs.
    + intros c1 c2 _ _. apply suffix_inj.
    + vm_compute.
      repeat (apply NoDup_cons; [cbn; intuition discriminate |]).
      apply NoDup_nil.
  - vm_compute. discriminate.
Qed.

(** C10, amended.  When the ids and the keys of the devices are pairwise
    distinct within each of the three dicts, the entities one call of the
    setup hands over have pairwise distinct unique ids: each unique id is
    the decimal device id followed by the suffix of the class, and the
    suffixes are pairwise distinct across all seventeen entity classes. *)
Theorem unique_ids_pairwise_distinct (data : PetKitData)
    (ents : list entity) :
  eval async_setup_entry data = Ok ents ->
  distinct_ids Fountain.id (water_fountains data) ->
  distinct_ids Feeder.id (feeders data) ->
  distinct_ids LitterBox.id (litter_boxes data) ->
  NoDup (map (fun e => eval (unique_id e) data) ents)
  /\ (forall e, In e ents ->
      exists i, device_id_attr data e = Some i
                /\ eval (unique_id e) data
                   = Ok (String.append (str i) (suffix (cls e))))
  /\ (forall c1 c2, suffix c1 = suffix c2 -> c1 = c2)
  /\ length all_classes = 17%nat
  /\ NoDup all_classes
  /\ (forall c, In c all_classes).
Proof.
  intros Hrun [Kwf Iwf] [Kf If_] [Klb Ilb].
  assert (Hid : forall e, In e ents ->
                 exists i, device_id_attr data e = Some i
                           /\ eval (unique_id e) data
                              = Ok (String.append (str i) (suffix (cls e)))).
  { intros e He.
    destruct (setup_entity_has_device _ _ Hrun He) as [i Hi].
    exists i. split; [exact Hi | now apply unique_id_run]. }
  split; [| split; [exact Hid | split; [exact suffix_inj | split; [| split]]]].
  - apply NoDup_map_NoDup_ForallPairs.
    + intros e1 e2 H1 H2 Heq.
      destruct (Hid e1 H1) as [i1 [A1 U1]].
      destruct (Hid e2 H2) as [i2 [A2 U2]].
      rewrite U1, U2 in Heq. injection Heq as Heq.
      apply unique_id_text_inj in Heq as [-> Hc].
      exact (same_id_same_entity _ _ _ Iwf If_ Ilb A1 A2 Hc).
    + exact (setup_NoDup _ Hrun Kwf Kf Klb).
  - reflexivity.
  - exact all_classes_NoDup.
  - exact all_classes_complete.
Qed.

Lemma unique_ids_pairwise_distinct_witness :
  eval async_setup_entry sample_data = Ok (registered sample_data)
  /\ NoDup (map (fun e => eval (unique_id e) sample_data)
             (registered sample_data)).
Proof.
  split; [reflexivity |].
  apply (@unique_ids_pairwise_distinct sample_data (registered sample_data)
           eq_refl).
  - split; cbn; repeat (apply NoDup_cons; [cbn; intuition discriminate |]);
      apply NoDup_nil.
  - split; cbn; repeat (apply NoDup_cons; [cbn; intuition discriminate |]);
      apply NoDup_nil.
  - split; cbn; repeat (apply NoDup_cons; [cbn; intuition discriminate |]);
      apply NoDup_nil.
Defined.

(** * Further properties of the setup *)

Lemma keys_determine_device (D : Type) (m : list (Z * D)) (k : Z)
    (d1 d2 : D) :
  NoDup (map fst m) -> In (k, d1) m -> In (k, d2) m -> d1 = d2.
Proof.
  induction m as [| [k' d'] m IH]; simpl; [intros _ [] |].
  intros Hnd H1 H2. apply NoDup_cons_iff in Hnd as [Hfresh Hnd].
  destruct H1 as [H1 | H1], H2 as [H2 | H2].
  - congruence.
  - injection H1 as -> ->. exfalso. apply Hfresh.
    now apply (in_map fst _ (k, d2)).
  - injection H2 as -> ->. exfalso. apply Hfresh.
    now apply (in_map fst _ (k, d1)).
  - now apply IH.
Qed.

Lemma devices_get_unique (D : Type) (m : list (Z * D)) (k : Z) (d : D) :
  NoDup (map fst m) -> In (k, d) m -> devices_get m k = Some d.
Proof.
  intros Hnd Hin. destruct (devices_get_In _ _ _ Hin) as [d' Hd'].
  rewrite Hd'. f_equal.
  apply devices_get_Some in Hd'.
  eapply keys_determine_device; eassumption.
Qed.

Lemma litter_box_part_ok_iff (k : Z) (lb : LitterBox.t) :
  (exists l, litter_box_part k lb = Ok l) <-> state_is_container lb = true.
Proof.
  unfold litter_box_part, state_is_container, getitem.
  destruct (dict_get (LitterBox.device_detail lb) "state") as [state |].
  - destruct state; cbn; split; intro H;
      first [ discriminate H | reflexivity | now eexists
            | destruct H as [l H]; discriminate H ].
  - split; intro H; [destruct H as [l H] |]; discriminate H.
Qed.

Lemma collect_ok_iff (D : Type) (part : Z -> D -> result (list entity))
    (items : list (Z * D)) :
  (exists l, collect part items = Ok l)
  <-> (forall k v, In (k, v) items -> exists l, part k v = Ok l).
Proof.
  induction items as [| [k v] rest IH]; simpl.
  - split; [intros _ k v [] | intros _; now eexists].
  - split.
    + intros [l H] k' v' [Heq | Hin].
      * injection Heq as <- <-.
        destruct (part k v) as [l1 |]; [now eexists | discriminate H].
      * destruct (part k v) as [l1 |]; [| discriminate H].
        destruct (collect part rest) as [l2 |]; [| discriminate H].
        apply (proj1 IH); [now eexists | exact Hin].
    + intro H.
      destruct (H k v (or_introl eq_refl)) as [l1 ->].
      destruct (proj2 IH (fun k' v' Hin => H k' v' (or_intror Hin)))
        as [l2 ->].
      now eexists.
Qed.

Lemma setup_succeeds_containers_aux (data : PetKitData) :
  (exists ents, eval async_setup_entry data = Ok ents)
  <-> (forall k lb, In (k, lb) (litter_boxes data) ->
       state_is_container lb = true).
Proof.
  unfold eval. rewrite async_setup_entry_run. cbn [fst].
  split.
  - intros [ents H] k lb Hin.
    apply (litter_box_part_ok_iff k).
    apply (proj1 (collect_ok_iff litter_box_part (litter_boxes data)));
      [| exact Hin].
    destruct (collect litter_box_part (litter_boxes data)) as [l |];
      [now eexists | discriminate H].
  - intro H.
    destruct (proj2 (collect_ok_iff litter_box_part (litter_boxes data)))
      as [l ->]; [| now eexists].
    intros k lb Hin. apply litter_box_part_ok_iff. now apply (H k).
Qed.

(** X1.  The setup hands a list over exactly when every litter box has a
    "state" entry that is a dict, a list or a string; otherwise it raises
    and Home Assistant gets no entity.  Fountains and feeders never make it
    fail. *)
Theorem setup_succeeds_iff_states_are_containers (data : PetKitData) :
  ((exists ents, eval async_setup_entry data = Ok ents)
   <-> (forall k lb, In (k, lb) (litter_boxes data) ->
        state_is_container lb = true))
  /\ ((exists k lb, In (k, lb) (litter_boxes data)
                    /\ state_is_container lb = false) ->
      registered data = []).
Proof.
  pose proof (setup_succeeds_containers_aux data) as Hiff.
  split; [exact Hiff |].
  intros [k [lb [Hin Hno]]]. unfold registered.
  destruct (eval async_setup_entry data) as [ents |] eqn:Hrun;
    [| reflexivity].
  assert (Hall := proj1 Hiff (ex_intro _ ents eq_refl) k lb Hin).
  congruence.
Qed.

Lemma setup_succeeds_iff_states_are_containers_witness :
  state_is_container sample_litter_box = true
  /\ registered null_state_data = [].
Proof.
  split; [reflexivity |].
  apply (proj2 (setup_succeeds_iff_states_are_containers null_state_data)).
  eexists. eexists. split; [left; reflexivity | reflexivity].
Defined.

(** Membership in the list a successful setup hands over. *)
Lemma setup_In (data : PetKitData) (ents : list entity) (e : entity) :
  eval async_setup_entry data = Ok ents ->
  In e ents
  <-> (exists wf, In (dev_id e, wf) (water_fountains data)
                  /\ fountain_gets wf (cls e) = true)
      \/ (exists feeder, In (dev_id e, feeder) (feeders data)
                         /\ feeder_gets feeder (cls e) = true)
      \/ (exists lb l, In (dev_id e, lb) (litter_boxes data)
                       /\ litter_box_part (dev_id e) lb = Ok l /\ In e l).
Proof.
  unfold eval. rewrite async_setup_entry_run. cbn [fst].
  destruct (collect litter_box_part (litter_boxes data)) as [l |] eqn:Hl;
    [| discriminate].
  intro H. injection H as <-.
  apply collect_flat_map in Hl. subst l.
  rewrite !in_app_iff, !in_flat_map. split.
  - intros [[[k d] [Hin He]] | [[[k d] [Hin He]] | [[k d] [Hin He]]]];
      cbn [fst snd] in He.
    + left. apply entities_of_In in He as [<- Hg]. now exists d.
    + right; left. apply entities_of_In in He as [<- Hg]. now exists d.
    + right; right.
      destruct (litter_box_part_In _ _ _ He) as [<- _].
      destruct (litter_box_part (dev_id e) d) as [l |] eqn:Hp;
        [| destruct He].
      exists d, l. repeat split; assumption.
  - intros [[d [Hin Hg]] | [[d [Hin Hg]] | [d [l [Hin [Hp He]]]]]].
    + left. exists (dev_id e, d). split; [exact Hin |].
      apply entities_of_In. now split.
    + right; left. exists (dev_id e, d). split; [exact Hin |].
      apply entities_of_In. now split.
    + right; right. exists (dev_id e, d). split; [exact Hin |].
      cbn [fst snd]. now rewrite Hp.
Qed.

(** X2.  A successful setup lists the fountains' entities first, then the
    feeders', then the litter boxes'. *)
Theorem setup_lists_entities_by_kind (data : PetKitData)
    (ents : list entity) :
  eval async_setup_entry data = Ok ents ->
  exists fountains feeders boxes : list entity,
    ents = fountains ++ feeders ++ boxes
    /\ Forall (fun e => kind_of (cls e) = KFountain) fountains
    /\ Forall (fun e => kind_of (cls e) = KFeeder) feeders
    /\ Forall (fun e => kind_of (cls e) = KLitterBox) boxes.
Proof.
  unfold eval. rewrite async_setup_entry_run. cbn [fst].
  destruct (collect litter_box_part (litter_boxes data)) as [l |] eqn:Hl;
    [| discriminate].
  intro H. injection H as <-.
  apply collect_flat_map in Hl.
  do 3 eexists. split; [reflexivity |].
  repeat split; apply Forall_forall; intros e He.
  - apply in_flat_map in He as [kv [_ He]].
    apply entities_of_In in He as [_ Hg]. exact (fountain_gets_kind _ _ Hg).
  - apply in_flat_map in He as [kv [_ He]].
    apply entities_of_In in He as [_ Hg]. exact (feeder_gets_kind _ _ Hg).
  - subst l. apply in_flat_map in He as [kv [_ He]].
    now apply litter_box_part_In in He.
Qed.

Lemma setup_lists_entities_by_kind_witness :
  exists fountains feeders boxes : list entity,
    registered sample_data = fountains ++ feeders ++ boxes
    /\ Forall (fun e => kind_of (cls e) = KFountain) fountains
    /\ Forall (fun e => kind_of (cls e) = KFeeder) feeders
    /\ Forall (fun e => kind_of (cls e) = KLitterBox) boxes.
Proof.
  apply (@setup_lists_entities_by_kind sample_data (registered sample_data)
           eq_refl).
Defined.

Lemma feeder_has_iff (data : PetKitData) (ents : list entity) (k : Z)
    (feeder : Feeder.t) (c : entity_class) :
  eval async_setup_entry data = Ok ents ->
  NoDup (map fst (feeders data)) ->
  In (k, feeder) (feeders data) ->
  kind_of c = KFeeder ->
  In (Entity c k) ents <-> feeder_gets feeder c = true.
Proof.
  intros Hrun Hnd Hin Hkind.
  rewrite (@setup_In data ents (Entity c k) Hrun). cbn [cls dev_id]. split.
  - intros [[wf [_ Hg]] | [[f' [Hin' Hg]] | [lb [l [_ [Hp He]]]]]].
    + apply fountain_gets_kind in Hg. congruence.
    + now rewrite (@keys_determine_device _ _ _ _ _ Hnd Hin Hin').
    + assert (Hk : kind_of (cls (Entity c k)) = KLitterBox).
      { apply (@litter_box_part_In k lb). now rewrite Hp. }
      cbn in Hk. congruence.
  - intro Hg. right; left. now exists feeder.
Qed.

Lemma litter_box_has_iff (data : PetKitData) (ents : list entity) (k : Z)
    (lb : LitterBox.t) :
  eval async_setup_entry data = Ok ents ->
  NoDup (map fst (litter_boxes data)) ->
  In (k, lb) (litter_boxes data) ->
  exists (state : json) (has_box_state : bool),
    getitem (LitterBox.device_detail lb) "state" = Ok state
    /\ contains "boxState" state = Ok has_box_state
    /\ (forall c, kind_of c = KLitterBox ->
        In (Entity c k) ents <-> litter_box_gets lb has_box_state c = true).
Proof.
  intros Hrun Hnd Hin.
  assert (Hok : exists l, litter_box_part k lb = Ok l).
  { apply litter_box_part_ok_iff.
    apply (proj1 (setup_succeeds_containers_aux data)
             (ex_intro _ ents Hrun) k lb Hin). }
  destruct Hok as [l Hl]. unfold litter_box_part in Hl.
  destruct (getitem (LitterBox.device_detail lb) "state") as [state |] eqn:Hs;
    [| discriminate Hl].
  destruct (contains "boxState" state) as [b |] eqn:Hc; [| discriminate Hl].
  injection Hl as <-.
  exists state, b.
  split; [first [exact Hs | reflexivity] | split; [exact Hc |]].
  intros c Hkind.
  rewrite (@setup_In data ents (Entity c k) Hrun). cbn [cls dev_id]. split.
  - intros [[wf [_ Hg]] | [[f [_ Hg]] | [lb' [l [Hin' [Hp He]]]]]].
    + apply fountain_gets_kind in Hg. congruence.
    + apply feeder_gets_kind in Hg. congruence.
    + rewrite <- (@keys_determine_device _ _ _ _ _ Hnd Hin Hin') in Hp.
      unfold litter_box_part in Hp. rewrite Hs, Hc in Hp.
      injection Hp as <-. now apply entities_of_In in He as [_ Hg].
  - intro Hg. right; right.
    exists lb, (entities_of k (litter_box_gets lb b)).
    split; [exact Hin | split].
    + unfold litter_box_part. now rewrite Hs, Hc.
    + apply entities_of_In. now split.
Qed.

(** Case analysis on a type code against the literals it is compared
    with. *)
Ltac split_type ty :=
  repeat match goal with
    | |- context [String.eqb ty ?s] =>
        destruct (String.eqb_spec ty s) as [-> | ?]; cbn
    end.

(** X3.  On every feeder the setup puts either [FoodLevel] or the two
    hopper sensors, never both and never neither; the hoppers come as a
    pair and with [BatteryInstalled]; [BatteryCharging] and
    [BatteryInstalled] never meet on one feeder; and a feeder with a
    [CameraStatus] has the whole "d4sh" set and no [FoodLevel]. *)
Theorem feeder_sensor_combinations (data : PetKitData) (ents : list entity)
    (k : Z) (feeder : Feeder.t) :
  eval async_setup_entry data = Ok ents ->
  NoDup (map fst (feeders data)) ->
  In (k, feeder) (feeders data) ->
  (In (Entity FoodLevel k) ents <-> ~ In (Entity FoodLevelHopper1 k) ents)
  /\ (In (Entity FoodLevelHopper1 k) ents
      <-> In (Entity FoodLevelHopper2 k) ents)
  /\ (In (Entity FoodLevelHopper1 k) ents ->
      In (Entity BatteryInstalled k) ents)
  /\ ~ (In (Entity BatteryCharging k) ents
        /\ In (Entity BatteryInstalled k) ents)
  /\ (In (Entity BatteryCharging k) ents -> In (Entity FoodLevel k) ents)
  /\ (In (Entity CameraStatus k) ents ->
      In (Entity BatteryInstalled k) ents
      /\ In (Entity FoodLevelHopper1 k) ents
      /\ In (Entity FoodLevelHopper2 k) ents
      /\ In (Entity Eating k) ents
      /\ In (Entity Feeding k) ents
      /\ In (Entity CarePlusSubscription k) ents
      /\ ~ In (Entity FoodLevel k) ents).
Proof.
  intros Hrun Hnd Hin.
  rewrite (@feeder_has_iff data ents k feeder FoodLevel Hrun Hnd Hin eq_refl).
  rewrite (@feeder_has_iff data ents k feeder FoodLevelHopper1 Hrun Hnd Hin
             eq_refl).
  rewrite (@feeder_has_iff data ents k feeder FoodLevelHopper2 Hrun Hnd Hin
             eq_refl).
  rewrite (@feeder_has_iff data ents k feeder BatteryInstalled Hrun Hnd Hin
             eq_refl).
  rewrite (@feeder_has_iff data ents k feeder BatteryCharging Hrun Hnd Hin
             eq_refl).
  rewrite (@feeder_has_iff data ents k feeder CameraStatus Hrun Hnd Hin
             eq_refl).
  rewrite (@feeder_has_iff data ents k feeder Eating Hrun Hnd Hin eq_refl).
  rewrite (@feeder_has_iff data ents k feeder Feeding Hrun Hnd Hin eq_refl).
  rewrite (@feeder_has_iff data ents k feeder CarePlusSubscription Hrun Hnd
             Hin eq_refl).
  unfold feeder_gets, str_in. cbn [existsb].
  remember (Feeder.type feeder) as ty eqn:Hty. clear Hty.
  split_type ty; intuition discriminate.
Qed.

Lemma feeder_sensor_combinations_witness :
  In (Entity FoodLevel 22) (registered sample_data)
  <-> ~ In (Entity FoodLevelHopper1 22) (registered sample_data).
Proof.
  refine (proj1 (@feeder_sensor_combinations sample_data
                   (registered sample_data) 22
                   (sample_feeder 22 "d3" (JInt 1)) eq_refl _ _)).
  - cbn. repeat (apply NoDup_cons; [cbn; intuition discriminate |]).
    apply NoDup_nil.
  - cbn. right; left; reflexivity.
Defined.

(** X4.  On every litter box [LBBinFull] and [LBLitterLack] come as a
    pair, and a litter box with [LBManuallyPaused] (a "t3") has that pair
    and [LBDeodorizerLack] as well. *)
Theorem litter_box_sensor_combinations (data : PetKitData)
    (ents : list entity) (k : Z) (lb : LitterBox.t) :
  eval async_setup_entry data = Ok ents ->
  NoDup (map fst (litter_boxes data)) ->
  In (k, lb) (litter_boxes data) ->
  (In (Entity LBBinFull k) ents <-> In (Entity LBLitterLack k) ents)
  /\ (In (Entity LBManuallyPaused k) ents <-> LitterBox.type lb = "t3")
  /\ (In (Entity LBManuallyPaused k) ents ->
      In (Entity LBBinFull k) ents
      /\ In (Entity LBLitterLack k) ents
      /\ In (Entity LBDeodorizerLack k) ents).
Proof.
  intros Hrun Hnd Hin.
  destruct (@litter_box_has_iff data ents k lb Hrun Hnd Hin)
    as [state [b [_ [_ Hhas]]]].
  rewrite (Hhas LBBinFull eq_refl), (Hhas LBLitterLack eq_refl),
    (Hhas LBManuallyPaused eq_refl), (Hhas LBDeodorizerLack eq_refl).
  unfold litter_box_gets, str_in. cbn [existsb].
  destruct (String.eqb_spec (LitterBox.type lb) "t3") as [Ht | Ht].
  - rewrite Ht. cbn. intuition.
  - cbn. intuition discriminate.
Qed.

Lemma litter_box_sensor_combinations_witness :
  In (Entity LBManuallyPaused 31) (registered sample_data)
  <-> LitterBox.type sample_litter_box = "t3".
Proof.
  refine (proj1 (proj2 (@litter_box_sensor_combinations sample_data
                          (registered sample_data) 31 sample_litter_box
                          eq_refl _ _))).
  - cbn. repeat (apply NoDup_cons; [cbn; intuition discriminate |]).
    apply NoDup_nil.
  - cbn. left; reflexivity.
Defined.

(** X5.  An [LBDeodorizerLack] entity the setup has just instantiated is
    available on the data it was set up from: the setup's condition ("t3"
    or a "k3Device" key) rules out the one case in which [available]
    answers [False]. *)
Theorem instantiated_deodorizer_is_available (data : PetKitData)
    (ents : list entity) (k : Z) :
  eval async_setup_entry data = Ok ents ->
  NoDup (map fst (litter_boxes data)) ->
  In (Entity LBDeodorizerLack k) ents ->
  eval (LBDeodorizerLack.available k) data = Ok true.
Proof.
  intros Hrun Hnd He. pose proof He as He0.
  apply (@setup_In data ents (Entity LBDeodorizerLack k) Hrun) in He.
  cbn [cls dev_id] in He.
  destruct He as [[wf [_ Hg]] | [[f [_ Hg]] | [lb [l [Hin _]]]]];
    [discriminate Hg | discriminate Hg |].
  destruct (@litter_box_has_iff data ents k lb Hrun Hnd Hin)
    as [state [b [_ [_ Hhas]]]].
  assert (Hg : litter_box_gets lb b LBDeodorizerLack = true).
  { exact (proj1 (Hhas LBDeodorizerLack eq_refl) He0). }
  cbn in Hg.
  unfold eval, LBDeodorizerLack.available, LBDeodorizerLack.lb_data, bind.
  rewrite (litter_box_of_ok _ _ (@devices_get_unique _ _ _ _ Hnd Hin)).
  destruct (String.eqb_spec (LitterBox.type lb) "t4") as [Ht | Ht];
    [| reflexivity].
  rewrite Ht in Hg. cbn in Hg. now rewrite Hg.
Qed.

Lemma instantiated_deodorizer_is_available_witness :
  In (Entity LBDeodorizerLack 31) (registered sample_data)
  /\ eval (LBDeodorizerLack.available 31) sample_data = Ok true.
Proof.
  assert (He : In (Entity LBDeodorizerLack 31) (registered sample_data)).
  { cbn. tauto. }
  split; [exact He |].
  refine (@instantiated_deodorizer_is_available sample_data
            (registered sample_data) 31 eq_refl _ He).
  cbn. repeat (apply NoDup_cons; [cbn; intuition discriminate |]).
  apply NoDup_nil.
Defined.

(** X6.  For an [LBBWastePresence] entity the setup has just
    instantiated, [is_on] returns a boolean exactly when the litter box's
    "state" is a dict: the setup's [in] test also succeeds on a list or a
    string that contains "boxState", and there [is_on] raises. *)
Theorem instantiated_waste_presence_is_on (data : PetKitData)
    (ents : list entity) (k : Z) (lb : LitterBox.t) :
  eval async_setup_entry data = Ok ents ->
  NoDup (map fst (litter_boxes data)) ->
  In (k, lb) (litter_boxes data) ->
  In (Entity LBBWastePresence k) ents ->
  ((exists b : bool, eval (LBBWastePresence.is_on k) data = Ok (JBool b))
   <-> (exists state : dict,
          dict_get (LitterBox.device_detail lb) "state" = Some (JDict state)))
  /\ ((forall state : dict,
         dict_get (LitterBox.device_detail lb) "state" <> Some (JDict state))
      -> eval (LBBWastePresence.is_on k) data = Raise TypeError).
Proof.
  intros Hrun Hnd Hin He.
  destruct (@litter_box_has_iff data ents k lb Hrun Hnd Hin)
    as [state [b [Hs [Hc Hhas]]]].
  apply (Hhas LBBWastePresence eq_refl) in He. cbn in He. subst b.
  unfold eval, LBBWastePresence.is_on, LBBWastePresence.lb_data, bind.
  rewrite (litter_box_of_ok _ _ (@devices_get_unique _ _ _ _ Hnd Hin)).
  unfold lift, ret, getitem2. rewrite Hs.
  unfold getitem in Hs.
  destruct (dict_get (LitterBox.device_detail lb) "state") as [state' |];
    [| discriminate Hs].
  injection Hs as ->.
  destruct state; cbn in Hc; try discriminate Hc; cbn [subscript].
  - split.
    + split; [intros [b Hb]; discriminate Hb | intros [st Hst]; discriminate Hst].
    + reflexivity.
  - split.
    + split; [intros [b Hb]; discriminate Hb | intros [st Hst]; discriminate Hst].
    + reflexivity.
  - injection Hc as Hc. unfold dict_contains in Hc. unfold getitem.
    destruct (dict_get d "boxState") as [v |]; [| discriminate Hc].
    split.
    + split; [intros _; now eexists |].
      intros _. destruct (py_eq_int v 1); now eexists.
    + intro H. exfalso. now apply (H d).
Qed.

Lemma instantiated_waste_presence_is_on_witness :
  In (Entity LBBWastePresence 31) (registered sample_data)
  /\ ((exists b : bool,
         eval (LBBWastePresence.is_on 31) sample_data = Ok (JBool b))
      <-> (exists state : dict,
             dict_get (LitterBox.device_detail sample_litter_box) "state"
             = Some (JDict state))).
Proof.
  assert (He : In (Entity LBBWastePresence 31) (registered sample_data)).
  { cbn. tauto. }
  split; [exact He |].
  refine (proj1 (@instantiated_waste_presence_is_on sample_data
                   (registered sample_data) 31 sample_litter_box
                   eq_refl _ _ He)).
  - cbn. repeat (apply NoDup_cons; [cbn; intuition discriminate |]).
    apply NoDup_nil.
  - cbn. left; reflexivity.
Defined.

(** * Further properties of the entities *)

(** X7.  When the device of an entity is no longer in the coordinator's
    data, [is_on], [unique_id] and [device_info] raise [KeyError], for every
    class. *)
Theorem missing_device_raises_KeyError (h : Host) (data : PetKitData)
    (e : entity) :
  device_blob data e = None ->
  eval (is_on e) data = Raise KeyError
  /\ eval (unique_id e) data = Raise KeyError
  /\ eval (device_info h e) data = Raise KeyError.
Proof.
  destruct e as [c k].
  unfold device_blob, eval, is_on, unique_id, device_info.
  destruct c; cbn [cls dev_id kind_of]; intro Hnone;
    match type of Hnone with
    | option_map _ ?g = None =>
        destruct g as [d |] eqn:Hdev; [discriminate Hnone |]
    end;
    repeat split;
    match goal with
    | |- fst (?f data) = _ => let hd := head_of f in unfold hd
    end;
    match goal with |- context [bind (?f k)] => unfold f end;
    unfold bind;
    first [ rewrite (fountain_of_missing _ _ Hdev)
          | rewrite (feeder_of_missing _ _ Hdev)
          | rewrite (litter_box_of_missing _ _ Hdev) ];
    reflexivity.
Qed.

Lemma missing_device_raises_KeyError_witness :
  device_blob sample_data (Entity WFWater 99) = None
  /\ eval (is_on (Entity WFWater 99)) sample_data = Raise KeyError.
Proof.
  split; [reflexivity |].
  exact (proj1 (@missing_device_raises_KeyError sample_host sample_data
                  (Entity WFWater 99) eq_refl)).
Defined.

(** Case analysis on every lookup and test a getter performs. *)
Ltac split_getter :=
  unfold lift, ret;
  repeat match goal with
    | |- context [String.eqb ?t "d3"] =>
        destruct (String.eqb t "d3"); cbn [negb]
    | |- context [getitem2 ?d ?a ?b] => destruct (getitem2 d a b) as [?v | ?x]
    | |- context [getitem ?d ?a] => destruct (getitem d a) as [?v | ?x]
    | |- context [py_lt_int ?v ?n] => destruct (py_lt_int v n) as [[|] | ?x]
    | |- context [py_gt_int ?v ?n] => destruct (py_gt_int v n) as [[|] | ?x]
    | |- context [py_eq_int ?v ?n] => destruct (py_eq_int v n)
    end.

(** X8.  For [WFWater], [FoodLevel], [CameraStatus], [LBBWastePresence],
    [CarePlusSubscription], [WFElectricStatus] and [WFPumpStatus] the icon
    follows [is_on]: [icon] raises exactly when [is_on] raises, with the
    same exception, and otherwise shows the class's "on" icon when [is_on]
    holds and its "off" icon when it does not. *)
Theorem icon_follows_is_on (data : PetKitData) (e : entity) :
  In (cls e) is_on_driven_icons ->
  eval (icon e) data
  = match eval (is_on e) data with
    | Ok on => Ok (JStr (icon_for (cls e) (truthy on)))
    | Raise x => Raise x
    end.
Proof.
  destruct e as [c k]. unfold eval, icon, is_on.
  destruct c; cbn [cls dev_id is_on_driven_icons In]; intro H;
    try (exfalso; repeat (destruct H as [H | H]; [discriminate H |]);
         exact H);
    clear H;
    match goal with
    | |- fst (?f k data) = match fst (?g k data) with _ => _ end =>
        unfold f, g
    end;
    match goal with |- context [bind (?f k)] => unfold f end;
    open_device k data; try reflexivity;
    unfold bind; split_getter; reflexivity.
Qed.

Lemma icon_follows_is_on_witness :
  In (cls (Entity WFPumpStatus 11)) is_on_driven_icons
  /\ eval (icon (Entity WFPumpStatus 11)) sample_data
     = Ok (JStr "mdi:water-pump").
Proof.
  assert (H : In (cls (Entity WFPumpStatus 11)) is_on_driven_icons).
  { cbn. tauto. }
  split; [exact H |].
  exact (@icon_follows_is_on sample_data (Entity WFPumpStatus 11) H).
Defined.

Lemma getitem_raises_KeyError (d : dict) (k : string) (x : exn) :
  getitem d k = Raise x -> x = KeyError.
Proof.
  unfold getitem. destruct (dict_get d k); intro H;
    [discriminate H | now injection H].
Qed.

Lemma table_getitem_raises_KeyError (table : list (string * string))
    (k : string) (x : exn) :
  table_getitem table k = Raise x -> x = KeyError.
Proof.
  induction table as [| [k' v] rest IH]; simpl; intro H.
  - now injection H.
  - destruct (String.eqb k' k); [discriminate H | now apply IH].
Qed.

Lemma fountain_device_info_identity (h : Host) (wf : Fountain.t)
    (s : PetKitData) (info : DeviceInfo) :
  eval (fountain_device_info h wf) s = Ok info ->
  identifiers info = [(DOMAIN h, Fountain.id wf)]
  /\ manufacturer info = "PetKit".
Proof.
  unfold eval, fountain_device_info, bind, lift, ret.
  destruct (getitem (Fountain.data wf) "name"); [| discriminate].
  destruct (dict_contains "typeCode" (Fountain.data wf)).
  - destruct (getitem (Fountain.data wf) "typeCode") as [tc |];
      [| discriminate].
    destruct (table_get (WATER_FOUNTAINS h) tc "Unidentified Water Fountain");
      [| discriminate].
    destruct (getitem (Fountain.data wf) "hardware"); [| discriminate].
    destruct (getitem (Fountain.data wf) "firmware"); [| discriminate].
    cbn. intro H. injection H as <-. split; reflexivity.
  - destruct (getitem (Fountain.data wf) "hardware"); [| discriminate].
    destruct (getitem (Fountain.data wf) "firmware"); [| discriminate].
    cbn. intro H. injection H as <-. split; reflexivity.
Qed.

Lemma feeder_device_info_identity (h : Host) (feeder : Feeder.t)
    (s : PetKitData) (info : DeviceInfo) :
  eval (feeder_device_info h feeder) s = Ok info ->
  identifiers info = [(DOMAIN h, Feeder.id feeder)]
  /\ manufacturer info = "PetKit".
Proof.
  unfold eval, feeder_device_info, bind, lift, ret.
  destruct (getitem (Feeder.data feeder) "name"); [| discriminate].
  destruct (table_getitem (FEEDERS h) (Feeder.type feeder)); [| discriminate].
  destruct (getitem (Feeder.data feeder) "firmware"); [| discriminate].
  cbn. intro H. injection H as <-. split; reflexivity.
Qed.

Lemma litter_box_device_info_identity (h : Host) (lb : LitterBox.t)
    (s : PetKitData) (info : DeviceInfo) :
  eval (litter_box_device_info h lb) s = Ok info ->
  identifiers info = [(DOMAIN h, LitterBox.id lb)]
  /\ manufacturer info = "PetKit".
Proof.
  unfold eval, litter_box_device_info, bind, lift, ret.
  destruct (getitem (LitterBox.device_detail lb) "name"); [| discriminate].
  destruct (table_getitem (LITTER_BOXES h) (LitterBox.type lb));
    [| discriminate].
  destruct (getitem (LitterBox.device_detail lb) "firmware"); [| discriminate].
  cbn. intro H. injection H as <-. split; reflexivity.
Qed.

(** X9.  All entities of one device report the same [device_info], so the
    host files them under one device; and whenever [device_info] returns,
    its identifiers are the single pair of [DOMAIN] and the device's [id],
    the very id [unique_id] starts with, and the manufacturer is
    "PetKit". *)
Theorem entities_of_one_device_share_device_info (h : Host)
    (data : PetKitData) (e1 e2 : entity) :
  kind_of (cls e1) = kind_of (cls e2) ->
  dev_id e1 = dev_id e2 ->
  eval (device_info h e1) data = eval (device_info h e2) data
  /\ (forall info, eval (device_info h e1) data = Ok info ->
      exists i, device_id_attr data e1 = Some i
                /\ identifiers info = [(DOMAIN h, i)]
                /\ manufacturer info = "PetKit"
                /\ eval (unique_id e1) data
                   = Ok (String.append (str i) (suffix (cls e1)))).
Proof.
  destruct e1 as [c1 k], e2 as [c2 k2]. cbn [cls dev_id].
  intros Hkind <-. split.
  - destruct c1, c2; first [discriminate Hkind | reflexivity].
  - clear Hkind c2. intros info Hinfo.
    assert (Hid : exists i,
               device_id_attr data (Entity c1 k) = Some i
               /\ identifiers info = [(DOMAIN h, i)]
               /\ manufacturer info = "PetKit").
    { revert Hinfo. unfold device_id_attr, eval, device_info.
      destruct c1; cbn [cls dev_id kind_of];
        match goal with
        | |- fst (?f h k data) = _ -> _ => unfold f
        end;
        match goal with |- context [bind (?f k)] => unfold f end;
        open_device k data; cbn [option_map fst]; intro Hinfo;
        try discriminate Hinfo;
        eexists; (split; [reflexivity |]);
        first [ exact (fountain_device_info_identity _ _ _ Hinfo)
              | exact (feeder_device_info_identity _ _ _ Hinfo)
              | exact (litter_box_device_info_identity _ _ _ Hinfo) ]. }
    destruct Hid as [i [Hi [Hids Hman]]].
    exists i. repeat split; try assumption.
    now apply unique_id_run.
Qed.

Lemma entities_of_one_device_share_device_info_witness :
  eval (device_info sample_host (Entity WFWater 11)) sample_data
  = eval (device_info sample_host (Entity WFPumpStatus 11)) sample_data.
Proof.
  exact (proj1 (@entities_of_one_device_share_device_info sample_host
                  sample_data (Entity WFWater 11) (Entity WFPumpStatus 11)
                  eq_refl eq_refl)).
Defined.

Lemma translation_key_in (data : PetKitData) (e : entity) (t : string) :
  eval (translation_key e) data = Ok t -> In t (translation_keys (cls e)).
Proof.
  destruct e as [c k]. unfold eval, translation_key.
  destruct c; cbn [cls dev_id translation_keys];
    try (intro H; injection H as <-; now left).
  unfold LBDeodorizerLack.translation_key, LBDeodorizerLack.lb_data.
  open_device k data; [| discriminate].
  destruct (dict_contains "k3Device" (LitterBox.device_detail lb));
    intro H; injection H as <-; cbn; tauto.
Qed.

Lemma translation_keys_disjoint (c1 c2 : entity_class) (t : string) :
  In t (translation_keys c1) -> In t (translation_keys c2) -> c1 = c2.
Proof.
  destruct c1; cbn; intro H1;
    repeat (destruct H1 as [H1 | H1]; [subst t |]); try destruct H1;
    destruct c2; cbn; intro H2;
    first [ reflexivity
          | exfalso;
            repeat (destruct H2 as [H2 | H2]; [discriminate H2 |]);
            exact H2 ].
Qed.

(** X10.  No two classes answer with the same translation key, whatever
    the data: a translation key identifies the class of the entity. *)
Theorem translation_key_identifies_class (data1 data2 : PetKitData)
    (e1 e2 : entity) (t : string) :
  eval (translation_key e1) data1 = Ok t ->
  eval (translation_key e2) data2 = Ok t ->
  cls e1 = cls e2.
Proof.
  intros H1 H2. apply translation_key_in in H1, H2.
  exact (translation_keys_disjoint _ _ _ H1 H2).
Qed.

Lemma translation_key_identifies_class_witness :
  eval (translation_key (Entity LBDeodorizerLack 31)) sample_data
  = Ok "deodorizer"
  /\ cls (Entity LBDeodorizerLack 31) = cls (Entity LBDeodorizerLack 32).
Proof.
  split; [reflexivity |].
  refine (@translation_key_identifies_class sample_data stateless_box_data
            (Entity LBDeodorizerLack 31) (Entity LBDeodorizerLack 32)
            "deodorizer" eq_refl eq_refl).
Defined.

(** X11.  A fountain whose blob holds "name", "hardware" and "firmware"
    always gets a [device_info] unless its type code cannot be hashed: a
    type code that is missing, or that the table does not know, yields the
    model "Unidentified Water Fountain"; a list or dict as type code raises
    [TypeError].  The software version is "<hardware>.<firmware>". *)
Theorem fountain_model_falls_back (h : Host) (data : PetKitData) (k : Z)
    (wf : Fountain.t) (n hw fw : json) (c : entity_class) :
  devices_get (water_fountains data) k = Some wf ->
  getitem (Fountain.data wf) "name" = Ok n ->
  getitem (Fountain.data wf) "hardware" = Ok hw ->
  getitem (Fountain.data wf) "firmware" = Ok fw ->
  kind_of c = KFountain ->
  let version :=
    String.append (format_value h hw)
      (String.append "." (format_value h fw)) in
  let info_with m :=
    {| identifiers := [(DOMAIN h, Fountain.id wf)];
       name := n;
       manufacturer := "PetKit";
       model := m;
       sw_version := version |} in
  (dict_get (Fountain.data wf) "typeCode" = None ->
   eval (device_info h (Entity c k)) data
   = Ok (info_with "Unidentified Water Fountain"))
  /\ (forall tc,
        dict_get (Fountain.data wf) "typeCode" = Some tc ->
        hashable tc = true ->
        table_find (WATER_FOUNTAINS h) tc = None ->
        eval (device_info h (Entity c k)) data
        = Ok (info_with "Unidentified Water Fountain"))
  /\ (forall tc m,
        dict_get (Fountain.data wf) "typeCode" = Some tc ->
        hashable tc = true ->
        table_find (WATER_FOUNTAINS h) tc = Some m ->
        eval (device_info h (Entity c k)) data = Ok (info_with m))
  /\ (forall tc,
        dict_get (Fountain.data wf) "typeCode" = Some tc ->
        hashable tc = false ->
        eval (device_info h (Entity c k)) data = Raise TypeError).
Proof.
  intros Hdev Hn Hhw Hfw Hkind version info_with.
  assert (Hrun : eval (device_info h (Entity c k)) data
                 = eval (fountain_device_info h wf) data).
  { unfold eval, device_info.
    destruct c; try discriminate Hkind; cbn [cls dev_id];
      match goal with |- fst (?f h k data) = _ => unfold f end;
      match goal with |- context [bind (?f k)] => unfold f end;
      unfold bind; rewrite (fountain_of_ok _ _ Hdev); reflexivity. }
  rewrite Hrun. clear Hrun.
  unfold eval, fountain_device_info, bind, lift, ret, dict_contains.
  rewrite Hn.
  repeat split.
  - intro Htc. rewrite Htc. rewrite Hhw, Hfw. reflexivity.
  - intros tc Htc Hh Hfind. rewrite Htc. unfold getitem at 1. rewrite Htc.
    unfold table_get. rewrite Hfind.
    destruct tc; try discriminate Hh; rewrite Hhw, Hfw; reflexivity.
  - intros tc m Htc Hh Hfind. rewrite Htc. unfold getitem at 1. rewrite Htc.
    unfold table_get. rewrite Hfind.
    destruct tc; try discriminate Hh; rewrite Hhw, Hfw; reflexivity.
  - intros tc Htc Hh. rewrite Htc. unfold getitem at 1. rewrite Htc.
    unfold table_get.
    destruct tc; try discriminate Hh; reflexivity.
Qed.

Lemma fountain_model_falls_back_witness :
  devices_get (water_fountains sample_data) 11 = Some sample_fountain
  /\ exists info,
       eval (device_info sample_host (Entity WFWater 11)) sample_data = Ok info
       /\ model info = "Eversweet 5 Mini"
       /\ sw_version info = "1.3".
Proof.
  split; [reflexivity |].
  eexists. split.
  - refine (proj1 (proj2 (proj2
              (@fountain_model_falls_back sample_host sample_data 11
                 sample_fountain (JStr "Fountain") (JInt 1) (JInt 3) WFWater
                 eq_refl eq_refl eq_refl eq_refl eq_refl)))
              (JInt 2) "Eversweet 5 Mini" eq_refl eq_refl eq_refl).
  - split; reflexivity.
Defined.

(** X12.  A feeder or a litter box whose type code is not in the model
    table ([FEEDERS], [LITTER_BOXES]) has no [device_info]: every one of
    its entities raises [KeyError] there, whatever its blob holds.  Unlike
    the fountains' table, these two have no fallback. *)
Theorem unknown_type_has_no_device_info (h : Host) (data : PetKitData)
    (e : entity) :
  (forall feeder,
      kind_of (cls e) = KFeeder ->
      devices_get (feeders data) (dev_id e) = Some feeder ->
      table_getitem (FEEDERS h) (Feeder.type feeder) = Raise KeyError ->
      eval (device_info h e) data = Raise KeyError)
  /\ (forall lb,
        kind_of (cls e) = KLitterBox ->
        devices_get (litter_boxes data) (dev_id e) = Some lb ->
        table_getitem (LITTER_BOXES h) (LitterBox.type lb) = Raise KeyError ->
        eval (device_info h e) data = Raise KeyError).
Proof.
  destruct e as [c k]. cbn [cls dev_id]. split.
  - intros feeder Hkind Hdev Htab.
    unfold eval, device_info.
    destruct c; try discriminate Hkind; cbn [cls dev_id];
      match goal with |- fst (?f h k data) = _ => unfold f end;
      match goal with |- context [bind (?f k)] => unfold f end;
      unfold bind; rewrite (feeder_of_ok _ _ Hdev);
      unfold feeder_device_info, bind, lift, ret; rewrite Htab;
      (destruct (getitem (Feeder.data feeder) "name") as [n | x] eqn:Hn;
       [ reflexivity
       | now rewrite (getitem_raises_KeyError _ _ Hn) ]).
  - intros lb Hkind Hdev Htab.
    unfold eval, device_info.
    destruct c; try discriminate Hkind; cbn [cls dev_id];
      match goal with |- fst (?f h k data) = _ => unfold f end;
      match goal with |- context [bind (?f k)] => unfold f end;
      unfold bind; rewrite (litter_box_of_ok _ _ Hdev);
      unfold litter_box_device_info, bind, lift, ret; rewrite Htab;
      (destruct (getitem (LitterBox.device_detail lb) "name") as [n | x] eqn:Hn;
       [ reflexivity
       | now rewrite (getitem_raises_KeyError _ _ Hn) ]).
Qed.

Lemma unknown_type_has_no_device_info_witness :
  In (Entity FoodLevel 25) (registered unlisted_feeder_data)
  /\ table_getitem (FEEDERS sample_host) "d9" = Raise KeyError
  /\ eval (device_info sample_host (Entity FoodLevel 25)) unlisted_feeder_data
     = Raise KeyError.
Proof.
  split; [cbn; tauto | split; [reflexivity |]].
  refine (proj1 (@unknown_type_has_no_device_info sample_host
                   unlisted_feeder_data (Entity FoodLevel 25))
            (sample_feeder 25 "d9" (JInt 40)) eq_refl eq_refl eq_refl).
Defined.

Lemma flat_map_through (A B C : Type) (p : A -> B) (f : A -> list C)
    (l1 l2 : list A) :
  (forall x y, p x = p y -> f x = f y) ->
  map p l1 = map p l2 ->
  flat_map f l1 = flat_map f l2.
Proof.
  intro Hf. revert l2.
  induction l1 as [| x l1 IH]; intros [| y l2] H; simpl in *;
    try discriminate H; [reflexivity |].
  injection H as Hxy Hrest. now rewrite (Hf x y Hxy), (IH l2 Hrest).
Qed.

Lemma collect_through (D B : Type) (p : Z * D -> B)
    (part : Z -> D -> result (list entity)) (l1 l2 : list (Z * D)) :
  (forall x y, p x = p y -> part (fst x) (snd x) = part (fst y) (snd y)) ->
  map p l1 = map p l2 ->
  collect part l1 = collect part l2.
Proof.
  intro Hf. revert l2.
  induction l1 as [| [k v] l1 IH]; intros [| [k' v'] l2] H; simpl in *;
    try discriminate H; [reflexivity |].
  injection H as Hxy Hrest.
  pose proof (Hf (k, v) (k', v') Hxy) as E. cbn [fst snd] in E.
  now rewrite E, (IH l2 Hrest).
Qed.

(** X13.  What the setup instantiates depends on little: of a fountain and
    of a feeder only the dict key and the type code, of a litter box the
    key, the type code, whether "k3Device" is a key of [device_detail], and
    its "state" entry.  Two coordinator data that agree on these, device by
    device and in order, get the same list (or the same exception). *)
Theorem setup_reads_types_and_state_only (data1 data2 : PetKitData) :
  map (fun kv => (fst kv, Fountain.type (snd kv))) (water_fountains data1)
  = map (fun kv => (fst kv, Fountain.type (snd kv))) (water_fountains data2) ->
  map (fun kv => (fst kv, Feeder.type (snd kv))) (feeders data1)
  = map (fun kv => (fst kv, Feeder.type (snd kv))) (feeders data2) ->
  map (fun kv =>
         (fst kv, LitterBox.type (snd kv),
          dict_contains "k3Device" (LitterBox.device_detail (snd kv)),
          dict_get (LitterBox.device_detail (snd kv)) "state"))
    (litter_boxes data1)
  = map (fun kv =>
           (fst kv, LitterBox.type (snd kv),
            dict_contains "k3Device" (LitterBox.device_detail (snd kv)),
            dict_get (LitterBox.device_detail (snd kv)) "state"))
      (litter_boxes data2) ->
  eval async_setup_entry data1 = eval async_setup_entry data2.
Proof.
  intros Hwf Hf Hlb. unfold eval. rewrite !async_setup_entry_run. cbn [fst].
  assert (E1 : flat_map
                 (fun kv => entities_of (fst kv) (fountain_gets (snd kv)))
                 (water_fountains data1)
               = flat_map
                   (fun kv => entities_of (fst kv) (fountain_gets (snd kv)))
                   (water_fountains data2)).
  { refine (flat_map_through _ _ _ _ _ Hwf).
    intros x y H. injection H as Hk Ht.
    unfold fountain_gets. now rewrite Hk, Ht. }
  assert (E2 : flat_map
                 (fun kv => entities_of (fst kv) (feeder_gets (snd kv)))
                 (feeders data1)
               = flat_map
                   (fun kv => entities_of (fst kv) (feeder_gets (snd kv)))
                   (feeders data2)).
  { refine (flat_map_through _ _ _ _ _ Hf).
    intros x y H. injection H as Hk Ht.
    unfold feeder_gets. now rewrite Hk, Ht. }
  assert (E3 : collect litter_box_part (litter_boxes data1)
               = collect litter_box_part (litter_boxes data2)).
  { refine (collect_through _ _ _ _ _ Hlb).
    intros x y H. injection H as Hk Ht Hk3 Hs.
    unfold litter_box_part, getitem, litter_box_gets.
    now rewrite Hk, Ht, Hk3, Hs. }
  now rewrite E1, E2, E3.
Qed.

Lemma setup_reads_types_and_state_only_witness :
  eval async_setup_entry sample_data
  = eval async_setup_entry sample_data_other_blobs.
Proof.
  exact (@setup_reads_types_and_state_only sample_data
           sample_data_other_blobs eq_refl eq_refl eq_refl).
Defined.
